(** * gdoc-shell: a shallow embedding of [gdoc_shell.py] and [utils.py]

    The program polls a cloud document for a command, runs it when its
    program name is whitelisted, and appends the result to a log table of
    the same document.  This file embeds the command gate
    ([_execute_command]), the document mutator ([_write_output]), the
    local-state helpers ([read_id], [needs_setup], [_create_file]) and the
    command-line dispatch, and proves the properties the specification
    states about them. *)

From Stdlib Require Import ZArith NArith Lia Ascii String List Bool.
From stdpp Require Import base option list gmap strings.

Open Scope N_scope.

(** ** Python strings

    A Python [str] is a sequence of Unicode code points; a [bytes] value is
    a sequence of octets.  Both are lists of [N] here. *)

Definition pystr := list N.
Definition pybytes := list N.

(** [py "lit"] is the [str] literal made of the characters of [lit]. *)
Definition py (s : string) : pystr :=
  map N_of_ascii (list_ascii_of_string s).

Definition in_range (lo hi c : N) : bool := (lo <=? c) && (c <=? hi).

(** [str.isspace] for one character: the code points CPython's
    [_PyUnicode_IsWhitespace] accepts. *)
Definition isspace (c : N) : bool :=
  in_range 0x09 0x0D c || in_range 0x1C 0x1F c || (c =? 0x20)
  || (c =? 0x85) || (c =? 0xA0) || (c =? 0x1680)
  || in_range 0x2000 0x200A c || (c =? 0x2028) || (c =? 0x2029)
  || (c =? 0x202F) || (c =? 0x205F) || (c =? 0x3000).

(** [str.split()] with no separator: runs of whitespace separate the
    tokens, and no token is empty.  [tok] is the token being scanned. *)
Fixpoint split_from (tok s : pystr) : list pystr :=
  match s with
  | [] => match tok with [] => [] | _ => [tok] end
  | c :: s' =>
      if isspace c
      then match tok with
           | [] => split_from [] s'
           | _ => tok :: split_from [] s'
           end
      else split_from (tok ++ [c]) s'
  end.

Definition split (s : pystr) : list pystr := split_from [] s.

(** [str.lstrip()], [str.rstrip()] and [str.strip()] with no argument. *)
Fixpoint lstrip (s : pystr) : pystr :=
  match s with
  | c :: s' => if isspace c then lstrip s' else s
  | [] => []
  end.

Definition rstrip (s : pystr) : pystr := rev (lstrip (rev s)).

Definition strip (s : pystr) : pystr := rstrip (lstrip s).

(** [bytes.decode('utf-8')] in strict mode: [None] stands for
    [UnicodeDecodeError].  Overlong forms, surrogates and values above
    U+10FFFF are rejected, as is a truncated sequence. *)
Definition is_cont (b : N) : bool := in_range 0x80 0xBF b.

Definition low6 (b : N) : N := N.land b 0x3F.

Fixpoint utf8_decode (bs : pybytes) : option pystr :=
  match bs with
  | [] => Some []
  | b0 :: r0 =>
      if b0 <? 0x80 then cons b0 <$> utf8_decode r0
      else if in_range 0xC2 0xDF b0 then
        match r0 with
        | b1 :: r1 =>
            if is_cont b1
            then cons (N.lor (N.shiftl (N.land b0 0x1F) 6) (low6 b1))
                   <$> utf8_decode r1
            else None
        | _ => None
        end
      else if in_range 0xE0 0xEF b0 then
        match r0 with
        | b1 :: b2 :: r2 =>
            let second_ok :=
              if b0 =? 0xE0 then in_range 0xA0 0xBF b1
              else if b0 =? 0xED then in_range 0x80 0x9F b1
              else is_cont b1 in
            if second_ok && is_cont b2
            then cons (N.lor (N.shiftl (N.land b0 0x0F) 12)
                         (N.lor (N.shiftl (low6 b1) 6) (low6 b2)))
                   <$> utf8_decode r2
            else None
        | _ => None
        end
      else if in_range 0xF0 0xF4 b0 then
        match r0 with
        | b1 :: b2 :: b3 :: r3 =>
            let second_ok :=
              if b0 =? 0xF0 then in_range 0x90 0xBF b1
              else if b0 =? 0xF4 then in_range 0x80 0x8F b1
              else is_cont b1 in
            if second_ok && is_cont b2 && is_cont b3
            then cons (N.lor (N.shiftl (N.land b0 0x07) 18)
                         (N.lor (N.shiftl (low6 b1) 12)
                            (N.lor (N.shiftl (low6 b2) 6) (low6 b3))))
                   <$> utf8_decode r3
            else None
        | _ => None
        end
      else None
  end.


(** ** JSON values

    The documents the remote service returns and the requests sent to it
    are Python values made of dicts, lists, strings, integers, booleans and
    [None].  A dict keeps its items in insertion order. *)

#[warnings="-register-all"] Inductive json : Type :=
| JNone : json
| JBool : bool -> json
| JInt : Z -> json
| JStr : pystr -> json
| JList : list json -> json
| JDict : list (pystr * json) -> json.

(** ** Exceptions and results *)

Inductive exn : Type :=
| KeyError : json -> exn
| AttributeError : pystr -> exn
| IndexError : exn
| TypeError : exn
| ValueError : pystr -> exn
| UnicodeDecodeError : exn
| UnicodeEncodeError : exn
| FileNotFoundError : pystr -> exn
| IsADirectoryError : pystr -> exn
| NotADirectoryError : pystr -> exn
| HttpError : exn
| SystemExit : Z -> exn
| OtherError : pystr -> exn.

Inductive result (A : Type) : Type :=
| Ok : A -> result A
| Raise : exn -> result A.

Arguments Ok {A} _.
Arguments Raise {A} _.

(** ** The world the program runs in *)

(** A node of the file system.  A regular file holds the characters
    stored in it; the platform encoding is taken to give back the text that
    was written. *)
Inductive node : Type :=
| File : pystr -> node
| Dir : node.

Inductive level : Type := INFO | WARNING.

(** A record of the module logger: level, format string, arguments. *)
Record log_record : Type := mkLog {
  log_level : level;
  log_format : pystr;
  log_args : list pystr
}.

(** A call received by the Docs service. *)
Inductive api_call : Type :=
| DocumentsGet : pystr -> api_call
| DocumentsBatchUpdate : pystr -> list json -> api_call.

(** [datetime.datetime] as far as [strftime] needs it. *)
Record datetime : Type := mkDatetime {
  dt_year : N; dt_month : N; dt_day : N;
  dt_hour : N; dt_minute : N; dt_second : N
}.

Record World : Type := mkWorld {
  w_argv : list pystr;             (* sys.argv *)
  w_fs : gmap pystr node;          (* files and directories, by path *)
  w_spawned : list (list pystr);   (* argument vectors given to subprocess.run *)
  w_log : list log_record;         (* what the module logger received *)
  w_docs : gmap pystr json;        (* the remote documents, by id *)
  w_api : list api_call;           (* calls received by the Docs service *)
  w_now : datetime;                (* what datetime.now() reads *)
  w_stderr : list pystr            (* lines printed on standard error *)
}.

Definition set_fs (f : gmap pystr node) (w : World) : World :=
  mkWorld (w_argv w) f (w_spawned w) (w_log w) (w_docs w) (w_api w) (w_now w) (w_stderr w).
Definition set_spawned (l : list (list pystr)) (w : World) : World :=
  mkWorld (w_argv w) (w_fs w) l (w_log w) (w_docs w) (w_api w) (w_now w) (w_stderr w).
Definition set_log (l : list log_record) (w : World) : World :=
  mkWorld (w_argv w) (w_fs w) (w_spawned w) l (w_docs w) (w_api w) (w_now w) (w_stderr w).
Definition set_docs (d : gmap pystr json) (w : World) : World :=
  mkWorld (w_argv w) (w_fs w) (w_spawned w) (w_log w) d (w_api w) (w_now w) (w_stderr w).
Definition set_api (l : list api_call) (w : World) : World :=
  mkWorld (w_argv w) (w_fs w) (w_spawned w) (w_log w) (w_docs w) l (w_now w) (w_stderr w).
Definition set_stderr (l : list pystr) (w : World) : World :=
  mkWorld (w_argv w) (w_fs w) (w_spawned w) (w_log w) (w_docs w) (w_api w) (w_now w) l.

(** ** The monad of Python statements: state and exceptions *)

Definition M (A : Type) : Type := World -> result A * World.

Definition ret {A} (a : A) : M A := fun w => (Ok a, w).

Definition raise {A} (e : exn) : M A := fun w => (Raise e, w).

Definition bind {A B} (m : M A) (k : A -> M B) : M B :=
  fun w => match m w with
           | (Ok a, w') => k a w'
           | (Raise e, w') => (Raise e, w')
           end.

Definition gets {A} (f : World -> A) : M A := fun w => (Ok (f w), w).

Definition modify (f : World -> World) : M unit := fun w => (Ok tt, f w).

(** A pure computation that may raise. *)
Definition lift {A} (r : result A) : M A := fun w => (r, w).

Declare Scope py_scope.
Delimit Scope py_scope with py.
Notation "x <- m ;; k" := (bind m (fun x => k))
  (at level 100, m at next level, right associativity) : py_scope.
Notation "m ;; k" := (bind m (fun _ => k))
  (at level 100, right associativity) : py_scope.
Open Scope py_scope.

(** Binding of pure results, for chains of subscripts. *)
Definition rbind {A B} (r : result A) (k : A -> result B) : result B :=
  match r with Ok a => k a | Raise e => Raise e end.

(** ** Logging *)

Definition logger_warning (fmt : pystr) (args : list pystr) : M unit :=
  modify (fun w => set_log (w_log w ++ [mkLog WARNING fmt args]) w).

Definition logger_info (fmt : pystr) (args : list pystr) : M unit :=
  modify (fun w => set_log (w_log w ++ [mkLog INFO fmt args]) w).

(** ** Subscripts, [len] and [+] on Python values *)

Fixpoint assoc (k : pystr) (items : list (pystr * json)) : option json :=
  match items with
  | [] => None
  | (k', v) :: rest => if decide (k' = k) then Some v else assoc k rest
  end.

(** [seq[i]] for an integer [i]: a negative index counts from the end. *)
Definition index_list {A} (l : list A) (i : Z) : result A :=
  let n := Z.of_nat (length l) in
  let j := (if i <? 0 then i + n else i)%Z in
  if ((0 <=? j) && (j <? n))%Z
  then match l !! Z.to_nat j with
       | Some x => Ok x
       | None => Raise IndexError
       end
  else Raise IndexError.

(** [v[k]] for a string key. *)
Definition getitem (v : json) (k : pystr) : result json :=
  match v with
  | JDict items =>
      match assoc k items with
      | Some x => Ok x
      | None => Raise (KeyError (JStr k))
      end
  | _ => Raise TypeError
  end.

(** [v[i]] for an integer. *)
Definition getindex (v : json) (i : Z) : result json :=
  match v with
  | JList l => index_list l i
  | JStr s => rbind (index_list s i) (fun c => Ok (JStr [c]))
  | JDict _ => Raise (KeyError (JInt i))
  | _ => Raise TypeError
  end.

(** [v + 1]. *)
Definition add1 (v : json) : result json :=
  match v with
  | JInt n => Ok (JInt (n + 1))
  | JBool b => Ok (JInt ((if b then 1 else 0) + 1))
  | _ => Raise TypeError
  end.

(** [len(v)]. *)
Definition len (v : json) : result Z :=
  match v with
  | JList l => Ok (Z.of_nat (length l))
  | JDict items => Ok (Z.of_nat (length items))
  | JStr s => Ok (Z.of_nat (length s))
  | _ => Raise TypeError
  end.

(** ** Paths and files

    The file system is keyed by the path strings the program passes to
    [open] and [os.path.exists]; paths are taken in canonical form. *)

Definition slash : N := 0x2F.
Definition LF : N := 0x0A.
Definition CR : N := 0x0D.

Fixpoint drop_slashes (s : pystr) : pystr :=
  match s with
  | c :: s' => if c =? slash then drop_slashes s' else s
  | [] => []
  end.

Fixpoint drop_to_slash (s : pystr) : pystr :=
  match s with
  | c :: s' => if c =? slash then s else drop_to_slash s'
  | [] => []
  end.

(** [os.path.dirname]: everything up to the last slash, then without its
    trailing slashes unless it consists of slashes only. *)
Definition dirname (p : pystr) : pystr :=
  let head := drop_to_slash (rev p) in
  match drop_slashes head with
  | [] => rev head
  | stripped => rev stripped
  end.

(** [os.path.join] of two components. *)
Definition path_join (a b : pystr) : pystr :=
  match b with
  | c :: _ => if c =? slash then b
              else match last a with
                   | None => b
                   | Some d => if d =? slash then a ++ b else a ++ slash :: b
                   end
  | [] => match last a with
          | None => []
          | Some d => if d =? slash then a else a ++ [slash]
          end
  end.

(** [os.path.exists]. *)
Definition os_path_exists (p : pystr) : M bool :=
  gets (fun w => match w_fs w !! p with Some _ => true | None => false end).

(** [open(path, 'w')]: the file is created or truncated.  The directory
    holding it must exist, and the path must not name a directory. *)
Definition open_w (path : pystr) : M unit :=
  fun w =>
    let fs := w_fs w in
    match last path with
    | None => (Raise (FileNotFoundError path), w)
    | Some c =>
        if c =? slash then (Raise (IsADirectoryError path), w)
        else match fs !! path with
             | Some Dir => (Raise (IsADirectoryError path), w)
             | _ =>
                 let d := dirname path in
                 let create := (Ok tt, set_fs (<[path := File []]> fs) w) in
                 match d with
                 | [] => create
                 | _ => match fs !! d with
                        | Some Dir => create
                        | Some (File _) => (Raise (NotADirectoryError path), w)
                        | None => (Raise (FileNotFoundError path), w)
                        end
                 end
             end
    end.

(** A character the encoding of text files, UTF-8, can write: a Unicode
    scalar value.  A surrogate is a character of a [str] but has no
    encoding. *)
Definition encodable (c : N) : bool :=
  (c <? 0xD800) || in_range 0xE000 0x10FFFF c.

(** [f.write(v)] on a file opened in text mode at [path]: only a [str] is
    accepted, and it is encoded as a whole before anything is stored, so a
    string with a character that cannot be encoded raises and stores
    nothing; a line feed is stored as it is. *)
Definition file_write (path : pystr) (v : json) : M unit :=
  match v with
  | JStr s =>
      if forallb encodable s
      then
        fun w => match w_fs w !! path with
                 | Some (File old) =>
                     (Ok tt, set_fs (<[path := File (old ++ s)]> (w_fs w)) w)
                 | _ => (Raise (OtherError (py "closed file")), w)
                 end
      else raise UnicodeEncodeError
  | _ => raise TypeError
  end.

(** [f.readline()] in text mode with universal newlines: the first line,
    its terminator (a line feed, a carriage return, or both) given as one
    line feed. *)
Fixpoint readline (text : pystr) : pystr :=
  match text with
  | [] => []
  | c :: rest =>
      if c =? LF then [LF]
      else if c =? CR then [LF]
      else c :: readline rest
  end.

(** [open(path, 'r')], giving the stored text. *)
Definition open_r (path : pystr) : M pystr :=
  fun w => match w_fs w !! path with
           | Some (File text) => (Ok text, w)
           | Some Dir => (Raise (IsADirectoryError path), w)
           | None => (Raise (FileNotFoundError path), w)
           end.

(** ** utils.py *)

Definition read_id (path : pystr) : M pystr :=
  text <- open_r path ;;
  let fid := readline text in
  ret fid.

Definition needs_setup (path fid_path token_path : pystr) : M bool :=
  e <- os_path_exists path ;;
  if negb e then ret true
  else
    e1 <- os_path_exists fid_path ;;
    if negb e1 then ret true
    else e2 <- os_path_exists token_path ;; ret (negb e2).

(** ** gdoc_shell.py *)

Definition MAIN_SECTION : pystr := py "GSHELL".

Definition OUTPUT_INVALID_CMD : pystr :=
  py "Command is not in the list of valid commands. Please add it to the config if you want to use it.".
Definition OUTPUT_NO_OUTPUT : pystr := py "No output".

(** The decimal digits of a number, most significant first. *)
Fixpoint uint_digits (d : Decimal.uint) : pystr :=
  match d with
  | Decimal.Nil => []
  | Decimal.D0 d' => 0x30 :: uint_digits d'
  | Decimal.D1 d' => 0x31 :: uint_digits d'
  | Decimal.D2 d' => 0x32 :: uint_digits d'
  | Decimal.D3 d' => 0x33 :: uint_digits d'
  | Decimal.D4 d' => 0x34 :: uint_digits d'
  | Decimal.D5 d' => 0x35 :: uint_digits d'
  | Decimal.D6 d' => 0x36 :: uint_digits d'
  | Decimal.D7 d' => 0x37 :: uint_digits d'
  | Decimal.D8 d' => 0x38 :: uint_digits d'
  | Decimal.D9 d' => 0x39 :: uint_digits d'
  end.

Definition decimal (n : N) : pystr := uint_digits (N.to_uint n).

(** A number on two digits at least, as [%m], [%d], [%H], [%M] and [%S]
    print it. *)
Definition two_digits (n : N) : pystr :=
  if n <? 10 then 0x30 :: decimal n else decimal n.

(** [strftime] with [DATETIME_FORMAT], ['%Y-%m-%d %H:%M:%S'].  The year is
    printed as the C library does for [%Y], with the digits it has and no
    padding: four of them from the year 1000 on. *)
Definition strftime_DATETIME_FORMAT (d : datetime) : pystr :=
  decimal (dt_year d) ++ py "-" ++ two_digits (dt_month d) ++ py "-"
  ++ two_digits (dt_day d) ++ py " " ++ two_digits (dt_hour d) ++ py ":"
  ++ two_digits (dt_minute d) ++ py ":" ++ two_digits (dt_second d).

(** What [subprocess.run] hands back, or the exception it raises. *)
Record CompletedProcess : Type := mkCompleted {
  returncode : Z;
  stdout : pybytes;
  stderr : pybytes
}.

Inductive child_outcome : Type :=
| ChildRaised : exn -> child_outcome
| ChildExited : CompletedProcess -> gmap pystr node -> child_outcome.

(** What [argparse] makes of a command line: a namespace, or a message
    with an exit status. *)
Inductive parse_outcome : Type :=
| Parsed : list (pystr * pystr) -> parse_outcome
| ParseExit : pystr -> Z -> parse_outcome.

Record ArgumentParser : Type := mkParser {
  description : pystr;
  positionals : list pystr
}.

Definition add_argument (dest : pystr) (p : ArgumentParser) : ArgumentParser :=
  mkParser (description p) (positionals p ++ [dest]).

(** The attribute [name] of an [argparse.Namespace]. *)
Fixpoint attr (name : pystr) (namespace : list (pystr * pystr)) : option pystr :=
  match namespace with
  | [] => None
  | (k, v) :: rest => if decide (k = name) then Some v else attr name rest
  end.

(** [with open(path, 'w') as f: f.write(v)]. *)
Definition write_text (path : pystr) (v : json) : M unit :=
  open_w path ;;
  file_write path v.

(** [_build_insert_text]. *)
Definition _build_insert_text (index text : json) : json :=
  JDict [(py "insertText",
          JDict [(py "location", JDict [(py "index", index)]);
                 (py "text", text)])].

Section Program.

(** The operating system running a child process: from the argument
    vector and the files it sees, either an exception or the completed
    process and the files it leaves. *)
Variable child : list pystr -> gmap pystr node -> child_outcome.

(** The document engine of the Docs service applying a batch of requests
    to a document; [None] when it rejects the batch. *)
Variable docs_engine : json -> list json -> option json.

(** The Drive service answering [files().create(body, fields)]. *)
Variable drive_create : json -> result json.

(** [os.path.expanduser('~')]. *)
Variable home : pystr.

(** [ArgumentParser.parse_args] of the [argparse] library. *)
Variable parse_args : ArgumentParser -> list pystr -> parse_outcome.

Definition STORAGE_PATH : pystr := path_join home (py ".gdoc_shell").
Definition FILE_ID_PATH : pystr := path_join STORAGE_PATH (py "fid").
Definition TOKEN_PATH : pystr := path_join STORAGE_PATH (py "token").
Definition DOC_MIMETYPE : pystr := py "application/vnd.google-apps.document".

(** [subprocess.run(args, capture_output=True)]. *)
Definition subprocess_run (args : list pystr) : M CompletedProcess :=
  fun w =>
    let w1 := set_spawned (w_spawned w ++ [args]) w in
    match child args (w_fs w) with
    | ChildRaised e => (Raise e, w1)
    | ChildExited cp fs' => (Ok cp, set_fs fs' w1)
    end.

Definition decode (b : pybytes) : M pystr :=
  match utf8_decode b with
  | Some s => ret s
  | None => raise UnicodeDecodeError
  end.

(** [service.documents().get(documentId=fid).execute()]. *)
Definition documents_get (fid : pystr) : M json :=
  fun w =>
    let w1 := set_api (w_api w ++ [DocumentsGet fid]) w in
    match w_docs w !! fid with
    | Some doc => (Ok doc, w1)
    | None => (Raise HttpError, w1)
    end.

(** [_batch_update]. *)
Definition _batch_update (fid : pystr) (requests : list json) : M unit :=
  fun w =>
    let w1 := set_api (w_api w ++ [DocumentsBatchUpdate fid requests]) w in
    match w_docs w !! fid with
    | Some doc =>
        match docs_engine doc requests with
        | Some doc' => (Ok tt, set_docs (<[fid := doc']> (w_docs w)) w1)
        | None => (Raise HttpError, w1)
        end
    | None => (Raise HttpError, w1)
    end.

Definition _create_file (filename : pystr) : M json :=
  let body := JDict [(py "name", JStr filename);
                     (py "mimeType", JStr DOC_MIMETYPE)] in
  response <- lift (drive_create body) ;;
  fid <- match response with
         | JDict items => ret (default JNone (assoc (py "id") items))
         | _ => raise (AttributeError (py "get"))
         end ;;
  write_text FILE_ID_PATH fid ;;
  ret fid.

Definition _execute_command (cmd : pystr) (valid_commands : gset pystr)
  : M (option pystr) :=
  let cmd_list := split cmd in
  match cmd_list with
  | [] => ret None
  | prog :: _ =>
      if bool_decide (prog ∉ valid_commands)
      then
        logger_warning
          (py "Attempted command %s failed since is not in valid commands list")
          [cmd] ;;
        ret (Some OUTPUT_INVALID_CMD)
      else
        result <- subprocess_run cmd_list ;;
        decoded <- decode (stdout result) ;;
        let output := strip decoded in
        logger_info (py "Output for command %s: %s") [cmd; output] ;;
        ret (Some (match output with
                   | [] => OUTPUT_NO_OUTPUT
                   | _ => output
                   end))
  end.

(** The argument vectors [_execute_command] handed to [subprocess.run]
    during one call. *)
Definition spawned_by (cmd : pystr) (valid : gset pystr) (w : World)
  : list (list pystr) :=
  drop (length (w_spawned w))
       (w_spawned (snd (_execute_command cmd valid w))).

Definition datetime_now : M datetime := gets w_now.

Definition _write_output (cmd : pystr) (output : option pystr) (fid : pystr)
  : M unit :=
  match output with
  | None => ret tt
  | Some out =>
      document <- documents_get fid ;;
      output_table <-
        lift (rbind (getitem document (py "body")) (fun body =>
              rbind (getitem body (py "content")) (fun content =>
              getindex content (-2)))) ;;
      table_cells <-
        lift (rbind (getitem output_table (py "table")) (fun t =>
              rbind (getitem t (py "tableRows")) (fun rows =>
              rbind (getindex rows (-1)) (fun row =>
              getitem row (py "tableCells"))))) ;;
      let cell_index (col : Z) :=
        rbind (getindex table_cells col) (fun c =>
        rbind (getitem c (py "startIndex")) add1) in
      index_datetime <- lift (cell_index 2%Z) ;;
      index_output <- lift (cell_index 1%Z) ;;
      index_cmd <- lift (cell_index 0%Z) ;;
      now <- datetime_now ;;
      table_start <- lift (getitem output_table (py "startIndex")) ;;
      row_count <-
        lift (rbind (getitem output_table (py "table")) (fun t =>
              rbind (getitem t (py "tableRows")) len)) ;;
      let requests :=
        [ _build_insert_text index_datetime (JStr (strftime_DATETIME_FORMAT now));
          _build_insert_text index_output (JStr out);
          _build_insert_text index_cmd (JStr cmd);
          JDict [(py "insertTableRow",
                  JDict [(py "tableCellLocation",
                          JDict [(py "tableStartLocation",
                                  JDict [(py "index", table_start)]);
                                 (py "rowIndex", JInt (row_count - 1));
                                 (py "columnIndex", JInt 0)]);
                         (py "insertBelow", JStr (py "true"))])] ] in
      _batch_update fid requests
  end.

(** [utils.build_parser]. *)
Definition the_parser : ArgumentParser :=
  add_argument (py "mode") (mkParser (py "Runs GDoc shell") []).

Definition build_parser : M (list (pystr * pystr)) :=
  argv <- gets w_argv ;;
  match parse_args the_parser (tail argv) with
  | Parsed namespace => ret namespace
  | ParseExit message status =>
      modify (fun w => set_stderr (w_stderr w ++ [message]) w) ;;
      raise (SystemExit status)
  end.

Definition getattr (namespace : list (pystr * pystr)) (name : pystr)
  : M pystr :=
  match attr name namespace with
  | Some v => ret v
  | None => raise (AttributeError name)
  end.

(** The two mode actions.  [start_daemon_process] never returns on its
    own (it daemonizes and polls for ever) and [stop] signals another
    process; the dispatch below takes them as given. *)
Variable start_daemon_process : M unit.
Variable stop : M unit.

(** The [if __name__ == '__main__'] block. *)
Definition main : M unit :=
  args <- build_parser ;;
  mode <- getattr args (py "mode") ;;
  if decide (mode = py "start") then start_daemon_process
  else if decide (mode = py "stop") then stop
  else if decide (mode = py "restart") then (stop ;; start_daemon_process)
  else raise (ValueError (py "Invalid mode.")).

End Program.

(** * The rest of the program *)

(** ** Configuration

    What a [ConfigParser] presents after reading [gshell.config]: the
    sections, each with its options and their values. *)

Definition config : Type := list (pystr * list (pystr * pystr)).

Fixpoint lookup_key {A} (k : pystr) (items : list (pystr * A)) : option A :=
  match items with
  | [] => None
  | (k', v) :: rest => if decide (k' = k) then Some v else lookup_key k rest
  end.

(** [config[section][key]]. *)
Definition config_get (c : config) (section key : pystr) : result pystr :=
  match lookup_key section c with
  | None => Raise (KeyError (JStr section))
  | Some options =>
      match lookup_key key options with
      | None => Raise (KeyError (JStr key))
      | Some v => Ok v
      end
  end.

(** The option names of [utils.Section]. *)
Definition CREDENTIALS : pystr := py "credentials".
Definition COMMANDS : pystr := py "valid_commands".
Definition FILE : pystr := py "filename".
Definition PID_PATH : pystr := py "pid_path".
Definition SLEEP_TIME : pystr := py "sleep_time".

Definition comma : N := 0x2C.

(** [str.split(sep)] for a one-character separator: the fields between
    the separators, empty ones included; the empty string has one field. *)
Fixpoint split_sep (sep : N) (s : pystr) : list pystr :=
  match s with
  | [] => [[]]
  | c :: s' =>
      if c =? sep then [] :: split_sep sep s'
      else match split_sep sep s' with
           | field :: fields => (c :: field) :: fields
           | [] => [[c]]
           end
  end.

(** [_build_valid_commands]. *)
Definition _build_valid_commands (c : config) : result (gset pystr) :=
  rbind (config_get c MAIN_SECTION COMMANDS) (fun config_commands =>
  Ok (list_to_set (map strip (split_sep comma config_commands)))).

(** [v.strip()] on a Python value. *)
Definition strip_value (v : json) : result pystr :=
  match v with
  | JStr s => Ok (strip s)
  | _ => Raise (AttributeError (py "strip"))
  end.

(** The cell [_read_command] reads in a document. *)
Definition command_cell_content (document : json) : result json :=
  rbind (getitem document (py "body")) (fun body =>
  rbind (getitem body (py "content")) (fun content =>
  rbind (getindex content 2) (fun command_table =>
  rbind (getitem command_table (py "table")) (fun t =>
  rbind (getitem t (py "tableRows")) (fun rows =>
  rbind (getindex rows 1) (fun row =>
  rbind (getitem row (py "tableCells")) (fun cells =>
  rbind (getindex cells 0) (fun c =>
  rbind (getitem c (py "content")) (fun cell_content =>
  rbind (getindex cell_content 0) (fun cell =>
  rbind (getitem cell (py "paragraph")) (fun p =>
  rbind (getitem p (py "elements")) (fun elements =>
  rbind (getindex elements 0) (fun element =>
  rbind (getitem element (py "textRun")) (fun run =>
  getitem run (py "content"))))))))))))))).

(** [for x in items: body(x)]. *)
Fixpoint for_each {A} (items : list A) (body : A -> M unit) : M unit :=
  match items with
  | [] => ret tt
  | x :: rest => body x ;; for_each rest body
  end.

(** The request of [_add_tables] that appends a table of two rows. *)
Definition insert_table_request (col : Z) : json :=
  JDict [(py "insertTable",
          JDict [(py "rows", JInt 2);
                 (py "columns", JInt col);
                 (py "endOfSegmentLocation",
                  JDict [(py "segmentId", JStr [])])])].

(** The start offsets, plus one, of the cells of the first row of a table. *)
Definition header_cells (table : json) : result json :=
  rbind (getitem table (py "table")) (fun t =>
  rbind (getitem t (py "tableRows")) (fun rows =>
  rbind (getindex rows 0) (fun row =>
  getitem row (py "tableCells")))).

Definition cell_offset (cells : json) (col : Z) : result json :=
  rbind (getindex cells col) (fun c =>
  rbind (getitem c (py "startIndex")) add1).

(** ** Directories *)

Fixpoint take_to_slash (s : pystr) : pystr :=
  match s with
  | c :: s' => if c =? slash then [] else c :: take_to_slash s'
  | [] => []
  end.

(** [os.path.basename]: what follows the last slash. *)
Definition basename (p : pystr) : pystr := rev (take_to_slash (rev p)).

Definition FileExistsError : exn := OtherError (py "FileExistsError").

Definition is_FileExistsError (e : exn) : bool :=
  match e with
  | OtherError m => bool_decide (m = py "FileExistsError")
  | _ => false
  end.

(** A path without the slashes that end it; a path made of slashes only
    is kept. *)
Definition without_trailing_slashes (p : pystr) : pystr :=
  match drop_slashes (rev p) with
  | [] => p
  | s => rev s
  end.

(** [os.mkdir]: the directory made is the one the path names once the
    slashes that end it are left out; it must not exist yet, and its
    parent must be a directory. *)
Definition os_mkdir (name : pystr) : M unit :=
  fun w =>
    let fs := w_fs w in
    let target := without_trailing_slashes name in
    match target with
    | [] => (Raise (FileNotFoundError name), w)
    | _ =>
        match fs !! target with
        | Some _ => (Raise FileExistsError, w)
        | None =>
            let create := (Ok tt, set_fs (<[target := Dir]> fs) w) in
            match dirname target with
            | [] => create
            | d => match fs !! d with
                   | Some Dir => create
                   | Some (File _) => (Raise (NotADirectoryError name), w)
                   | None => (Raise (FileNotFoundError name), w)
                   end
            end
        end
    end.

(** [os.makedirs(name)]: the missing parents are made first.  Every call
    on a parent is on a shorter path; [fuel] bounds their number. *)
Fixpoint makedirs_fuel (fuel : nat) (name : pystr) : M unit :=
  match fuel with
  | O => raise (OtherError (py "RecursionError"))
  | S fuel' =>
      let head0 := dirname name in
      let tail0 := basename name in
      let head := match tail0 with [] => dirname head0 | _ => head0 end in
      let tail := match tail0 with [] => basename head0 | _ => tail0 end in
      let make := os_mkdir name in
      match head, tail with
      | _ :: _, _ :: _ =>
          e <- os_path_exists head ;;
          if negb e
          then
            (fun w =>
               match makedirs_fuel fuel' head w with
               | (Raise err, w') =>
                   if is_FileExistsError err then (Ok tt, w')
                   else (Raise err, w')
               | r => r
               end) ;;
            if decide (tail = py ".") then ret tt else make
          else make
      | _, _ => make
      end
  end.

Definition os_makedirs (name : pystr) : M unit :=
  makedirs_fuel (S (length name)) name.

(** [utils.create_lib_dir]. *)
Definition create_lib_dir (path : pystr) : M unit :=
  e <- os_path_exists path ;;
  if negb e then os_makedirs path else ret tt.

Section Cycle.

Variable child : list pystr -> gmap pystr node -> child_outcome.
Variable docs_engine : json -> list json -> option json.
Variable home : pystr.

(** [ConfigParser()] followed by [config.read(GSHELL_CONFIG)]. *)
Variable read_config : M config.

(** [_get_http_client] on a credentials file, followed by
    [discovery.build] of the Docs service. *)
Variable connect : pystr -> M unit.

(** [_read_command]. *)
Definition _read_command (fid : pystr) : M pystr :=
  document <- documents_get fid ;;
  cell <- lift (command_cell_content document) ;;
  content <- lift (strip_value cell) ;;
  ret content.

(** [_add_tables]. *)
Definition _add_tables (fid : pystr) : M unit :=
  for_each [1; 3]%Z (fun col =>
    let requests := [insert_table_request col] in
    _batch_update docs_engine fid requests) ;;
  document <- documents_get fid ;;
  content <-
    lift (rbind (getitem document (py "body")) (fun body =>
          getitem body (py "content"))) ;;
  command_table <- lift (getindex content 2) ;;
  output_table <- lift (getindex content 4) ;;
  output_table_cells <- lift (header_cells output_table) ;;
  command_table_cells <- lift (header_cells command_table) ;;
  r1 <- lift (cell_offset output_table_cells 2) ;;
  r2 <- lift (cell_offset output_table_cells 1) ;;
  r3 <- lift (cell_offset output_table_cells 0) ;;
  r4 <- lift (cell_offset command_table_cells 0) ;;
  let requests :=
    [ _build_insert_text r1 (JStr (py "Datetime"));
      _build_insert_text r2 (JStr (py "Output"));
      _build_insert_text r3 (JStr (py "Command"));
      _build_insert_text r4 (JStr (py "Insert command below")) ] in
  _batch_update docs_engine fid requests.

(** [_run]: one poll cycle. *)
Definition _run : M unit :=
  c <- read_config ;;
  fid <- read_id (FILE_ID_PATH home) ;;
  logger_info (py "File id found %s") [fid] ;;
  credentials <- lift (config_get c MAIN_SECTION CREDENTIALS) ;;
  connect credentials ;;
  cmd <- _read_command fid ;;
  logger_info (py "Command to execute: %s") [cmd] ;;
  valid_commands <- lift (_build_valid_commands c) ;;
  output <- _execute_command child cmd valid_commands ;;
  _write_output docs_engine cmd output fid ;;
  logger_info (py "Output updated to file") [].

End Cycle.

(** ** Stopping the daemon *)

Definition SIGTERM : N := 15.

Section Stop.

Variable read_config : M config.

(** The built-in [int] on a string. *)
Variable py_int : pystr -> result Z.

(** [os.kill(pid, signal)]. *)
Variable os_kill : Z -> N -> M unit.

(** [stop]. *)
Definition stop_daemon : M unit :=
  logger_info (py "Shutting down daemon process.") [] ;;
  c <- read_config ;;
  pid_path <- lift (config_get c MAIN_SECTION PID_PATH) ;;
  text <- read_id pid_path ;;
  pid <- lift (py_int text) ;;
  os_kill pid SIGTERM.

End Stop.

(** ** The program as a whole *)

(** [open(path, 'a')]: a file that is there is kept as it is, one that is
    not is created empty.  The directory holding it must exist, and the
    path must not name a directory. *)
Definition open_a (path : pystr) : M unit :=
  fun w =>
    let fs := w_fs w in
    match last path with
    | None => (Raise (FileNotFoundError path), w)
    | Some c =>
        if c =? slash then (Raise (IsADirectoryError path), w)
        else match fs !! path with
             | Some Dir => (Raise (IsADirectoryError path), w)
             | Some (File _) => (Ok tt, w)
             | None =>
                 let create := (Ok tt, set_fs (<[path := File []]> fs) w) in
                 match dirname path with
                 | [] => create
                 | d => match fs !! d with
                        | Some Dir => create
                        | Some (File _) => (Raise (NotADirectoryError path), w)
                        | None => (Raise (FileNotFoundError path), w)
                        end
                 end
             end
    end.

(** The default [log_path] of [utils.setup_logger], relative to the
    working directory. *)
Definition LOG_PATH : pystr := py "log/gdoc_shell.log".

(** [utils.setup_logger]: making the [logging.FileHandler] opens the log
    file for appending; naming the logger, setting its level and its
    formatter leave the world as it is. *)
Definition setup_logger (name log_path : pystr) : M unit :=
  open_a log_path.

(** A command-line word that [argparse] takes for the value of a
    positional argument whatever the options of the parser are: one that
    does not start with a dash. *)
Definition plain_word (a : pystr) : bool :=
  match a with
  | c :: _ => negb (c =? 0x2D)
  | [] => true
  end.

Section Argparse.

(** What [argparse] makes of a command line holding a word that starts
    with a dash, and the message it prints when it refuses one. *)
Variable parse_dashed : ArgumentParser -> list pystr -> parse_outcome.
Variable error_message : ArgumentParser -> list pystr -> pystr.

(** [parser.parse_args(args)] for a parser whose arguments are positional
    ones taking one word each: plain words are given to them in order,
    and the command line is refused with status 2 when their number is not
    the number of positional arguments. *)
Definition argparse_parse_args (p : ArgumentParser) (args : list pystr)
  : parse_outcome :=
  if forallb plain_word args then
    if decide (length args = length (positionals p))
    then Parsed (zip (positionals p) args)
    else ParseExit (error_message p args) 2
  else parse_dashed p args.

Variable start_daemon_process : M unit.
Variable stop : M unit.

(** Running [gdoc_shell.py]: the statements of the module, of which
    [utils.setup_logger(__name__)] alone acts on the world, then the
    [__main__] block. *)
Definition program : M unit :=
  setup_logger (py "__main__") LOG_PATH ;;
  main argparse_parse_args start_daemon_process stop.

End Argparse.

(** * Vocabulary of the properties *)

(** A string made of whitespace only, the empty one included. *)
Definition blank (s : pystr) : bool := forallb isspace s.

(** The format of the warning logged for a rejected command. *)
Definition WARNING_FORMAT : pystr :=
  py "Attempted command %s failed since is not in valid commands list".

(** [d] is a dict holding [v] under the key [k]. *)
Definition has_key (k : pystr) (v d : json) : Prop :=
  exists items, d = JDict items /\ assoc k items = Some v.

(** The shape the program expects of a document: the block before the last
    one is a table starting at [table_start]; its rows are [rows_before]
    followed by a last row, whose first three cells start at [c0], [c1] and
    [c2]. *)
Definition output_table_shape (doc table_start : json)
    (rows_before : list json) (c0 c1 c2 : Z) : Prop :=
  exists body blocks_before tbl trailing t last_row cell0 cell1 cell2 more,
    has_key (py "body") body doc
    /\ has_key (py "content") (JList (blocks_before ++ [tbl; trailing])) body
    /\ has_key (py "startIndex") table_start tbl
    /\ has_key (py "table") t tbl
    /\ has_key (py "tableRows") (JList (rows_before ++ [last_row])) t
    /\ has_key (py "tableCells") (JList (cell0 :: cell1 :: cell2 :: more)) last_row
    /\ has_key (py "startIndex") (JInt c0) cell0
    /\ has_key (py "startIndex") (JInt c1) cell1
    /\ has_key (py "startIndex") (JInt c2) cell2.

(** The request inserting a row below row [row] of the table at
    [table_start]. *)
Definition insert_row_below (table_start : json) (row : Z) : json :=
  JDict [(py "insertTableRow",
          JDict [(py "tableCellLocation",
                  JDict [(py "tableStartLocation",
                          JDict [(py "index", table_start)]);
                         (py "rowIndex", JInt row);
                         (py "columnIndex", JInt 0)]);
                 (py "insertBelow", JStr (py "true"))])].

(** The request inserting [text] at the offset [index], written out. *)
Definition insert_text_request (index : json) (text : pystr) : json :=
  JDict [(py "insertText",
          JDict [(py "location", JDict [(py "index", index)]);
                 (py "text", JStr text)])].

(** The request appending a table of [rows] rows and [columns] columns at
    the end of the body, written out. *)
Definition append_table_request (rows columns : Z) : json :=
  JDict [(py "insertTable",
          JDict [(py "rows", JInt rows);
                 (py "columns", JInt columns);
                 (py "endOfSegmentLocation",
                  JDict [(py "segmentId", JStr [])])])].

(** The text an [insertText] request inserts. *)
Definition inserted_text (request : json) : option pystr :=
  match rbind (getitem request (py "insertText")) (fun i =>
        getitem i (py "text")) with
  | Ok (JStr t) => Some t
  | _ => None
  end.

(** The offset an [insertText] request writes at. *)
Definition insert_offset (request : json) : option Z :=
  match rbind (getitem request (py "insertText")) (fun i =>
        rbind (getitem i (py "location")) (fun l =>
        getitem l (py "index"))) with
  | Ok (JInt n) => Some n
  | _ => None
  end.

(** A character that does not end a line. *)
Definition line_char (c : N) : bool := negb (c =? LF) && negb (c =? CR).

(** A string holding no line terminator. *)
Definition single_line (s : pystr) : bool := forallb line_char s.

(** * Sample inputs *)

Definition sample_now : datetime := mkDatetime 2020 1 1 12 30 5.

Definition empty_world : World := mkWorld [] ∅ [] [] ∅ [] sample_now [].

(** The whitelist of the test configuration. *)
Definition sample_valid : gset pystr :=
  {[ py "pwd"; py "ls"; py "touch"; py "echo"; py "more" ]}.

Fixpoint unwords (l : list pystr) : pystr :=
  match l with
  | [] => []
  | [x] => x
  | x :: rest => x ++ 0x20 :: unwords rest
  end.

(** A system where [echo] prints its arguments and every other program
    prints nothing. *)
Definition sample_child (args : list pystr) (fs : gmap pystr node)
  : child_outcome :=
  match args with
  | prog :: rest =>
      if decide (prog = py "echo")
      then ChildExited (mkCompleted 0 (unwords rest ++ [LF]) []) fs
      else ChildExited (mkCompleted 0 [] []) fs
  | [] => ChildRaised IndexError
  end.

Definition sample_cell (start : Z) : json :=
  JDict [(py "startIndex", JInt start); (py "endIndex", JInt (start + 2));
         (py "content", JList [])].

Definition sample_row (start : Z) (cells : list json) : json :=
  JDict [(py "startIndex", JInt start); (py "tableCells", JList cells)].

Definition sample_paragraph (start : Z) : json :=
  JDict [(py "startIndex", JInt start); (py "paragraph", JDict [])].

Definition sample_output_header : json :=
  sample_row 15 [sample_cell 16; sample_cell 25; sample_cell 33].
Definition sample_output_last_row : json :=
  sample_row 43 [sample_cell 44; sample_cell 46; sample_cell 48].

Definition sample_output_table : json :=
  JDict [(py "startIndex", JInt 14);
         (py "table",
          JDict [(py "rows", JInt 2); (py "columns", JInt 3);
                 (py "tableRows",
                  JList [sample_output_header; sample_output_last_row])])].

Definition sample_command_table : json :=
  JDict [(py "startIndex", JInt 2);
         (py "table",
          JDict [(py "rows", JInt 2); (py "columns", JInt 1);
                 (py "tableRows",
                  JList [sample_row 3 [sample_cell 4];
                         sample_row 9 [sample_cell 10]])])].

Definition sample_document : json :=
  JDict [(py "title", JStr (py "gdoc shell"));
         (py "body",
          JDict [(py "content",
                  JList [JDict [(py "sectionBreak", JDict [])];
                         sample_paragraph 1;
                         sample_command_table;
                         sample_paragraph 13;
                         sample_output_table;
                         sample_paragraph 50])])].

Definition sample_fid : pystr := py "123Testing....Testing".

Definition docs_world : World :=
  mkWorld [] ∅ [] [] {[ sample_fid := sample_document ]} [] sample_now [].

(** An engine that accepts every batch and leaves the document alone. *)
Definition sample_engine (doc : json) (requests : list json) : option json :=
  Some doc.

Definition sample_home : pystr := py "/home/user".

Definition home_world : World :=
  mkWorld [] {[ py "/home/user/.gdoc_shell" := Dir;
                py "/var/run/gshell.pid" := File (py "4242" ++ [LF]) ]}
          [] [] ∅ [] sample_now [].

(** A parser outcome for one positional argument. *)
Definition sample_parse_args (p : ArgumentParser) (argv : list pystr)
  : parse_outcome :=
  match argv with
  | [m] => Parsed [(py "mode", m)]
  | _ => ParseExit (py "usage: gdoc_shell.py [-h] mode") 2
  end.

Definition sample_start : M unit := logger_info (py "Starting daemon") [].
Definition sample_stop : M unit :=
  logger_info (py "Shutting down daemon process.") [].

Definition cli_world (mode : pystr) : World :=
  mkWorld [py "gdoc_shell.py"; mode] ∅ [] [] ∅ [] sample_now [].

(** * Vocabulary of the further properties *)

(** The cell of the command table holds [text]: the third block of the
    body is a table, and the first text run of the first paragraph of the
    first cell of its second row has [text] as content. *)
Definition command_table_shape (doc text : json) : Prop :=
  exists body blocks tbl t rows row cells c cell_content cell p elements
         element run,
    has_key (py "body") body doc
    /\ has_key (py "content") (JList blocks) body
    /\ blocks !! 2%nat = Some tbl
    /\ has_key (py "table") t tbl
    /\ has_key (py "tableRows") (JList rows) t
    /\ rows !! 1%nat = Some row
    /\ has_key (py "tableCells") (JList cells) row
    /\ cells !! 0%nat = Some c
    /\ has_key (py "content") (JList cell_content) c
    /\ cell_content !! 0%nat = Some cell
    /\ has_key (py "paragraph") p cell
    /\ has_key (py "elements") (JList elements) p
    /\ elements !! 0%nat = Some element
    /\ has_key (py "textRun") run element
    /\ has_key (py "content") text run.

(** The cells of the first row of a table. *)
Definition first_row_cells (table : json) (cells : list json) : Prop :=
  exists t rows row,
    has_key (py "table") t table
    /\ has_key (py "tableRows") (JList rows) t
    /\ rows !! 0%nat = Some row
    /\ has_key (py "tableCells") (JList cells) row.

Definition cell_starts_at (cells : list json) (col : nat) (start : Z) : Prop :=
  exists c, cells !! col = Some c /\ has_key (py "startIndex") (JInt start) c.

(** The shape of the document after the two tables are appended: the third
    block is the command table, whose first cell starts at [k]; the fifth
    is the output table, whose header cells start at [o0], [o1], [o2]. *)
Definition template_shape (doc : json) (k o0 o1 o2 : Z) : Prop :=
  exists body blocks ctable otable ccells ocells,
    has_key (py "body") body doc
    /\ has_key (py "content") (JList blocks) body
    /\ blocks !! 2%nat = Some ctable
    /\ blocks !! 4%nat = Some otable
    /\ first_row_cells ctable ccells
    /\ first_row_cells otable ocells
    /\ cell_starts_at ccells 0 k
    /\ cell_starts_at ocells 0 o0
    /\ cell_starts_at ocells 1 o1
    /\ cell_starts_at ocells 2 o2.

(** [sep.join(fields)]. *)
Fixpoint join_sep (sep : N) (fields : list pystr) : pystr :=
  match fields with
  | [] => []
  | [f] => f
  | f :: rest => f ++ sep :: join_sep sep rest
  end.

(** A string without the character [sep]. *)
Definition free_of (sep : N) (s : pystr) : bool :=
  forallb (fun c => negb (c =? sep)) s.

(** A path whose last component is a name: it ends neither with a slash
    nor with the component [.]. *)
Definition plain_name (path : pystr) : Prop :=
  basename path <> [] /\ basename path <> py ".".

(** [w'] differs from [w] at most by directories added to the file
    system: what was there is kept as it was. *)
Definition adds_directories (w w' : World) : Prop :=
  (forall p n, w_fs w !! p = Some n -> w_fs w' !! p = Some n)
  /\ (forall p n, w_fs w' !! p = Some n -> w_fs w !! p = Some n \/ n = Dir)
  /\ w' = set_fs (w_fs w') w.

(** The world after the logger received one more record. *)
Definition logged (r : log_record) (w : World) : World :=
  set_log (w_log w ++ [r]) w.

(** The world after the Docs service received one more call. *)
Definition called (c : api_call) (w : World) : World :=
  set_api (w_api w ++ [c]) w.

(** * More sample inputs *)

(** A system where every program exits with status 1, printing what
    [sample_child] prints and a complaint on standard error. *)
Definition sample_child_failing (args : list pystr) (fs : gmap pystr node)
  : child_outcome :=
  match sample_child args fs with
  | ChildExited cp fs' =>
      ChildExited (mkCompleted 1 (stdout cp) (py "failed")) fs'
  | other => other
  end.

(** A system where every program prints two bytes that are not UTF-8. *)
Definition sample_child_binary (args : list pystr) (fs : gmap pystr node)
  : child_outcome :=
  ChildExited (mkCompleted 0 [0xFF; 0xFE] []) fs.

(** A system where no program is installed. *)
Definition sample_child_missing (args : list pystr) (fs : gmap pystr node)
  : child_outcome :=
  ChildRaised (FileNotFoundError (default [] (head args))).

Definition short_document : json :=
  JDict [(py "body", JDict [(py "content", JList [sample_paragraph 1])])].

Definition short_row_table : json :=
  JDict [(py "startIndex", JInt 2);
         (py "table",
          JDict [(py "tableRows",
                  JList [sample_row 3 [sample_cell 4; sample_cell 6]])])].

Definition short_row_document : json :=
  JDict [(py "body",
          JDict [(py "content",
                  JList [sample_paragraph 1; short_row_table;
                         sample_paragraph 9])])].

Definition sample_text_run (text : pystr) : json :=
  JDict [(py "textRun", JDict [(py "content", JStr text)])].

Definition sample_text_paragraph (text : pystr) : json :=
  JDict [(py "paragraph",
          JDict [(py "elements", JList [sample_text_run text])])].

Definition sample_text_cell (start : Z) (text : pystr) : json :=
  JDict [(py "startIndex", JInt start);
         (py "content", JList [sample_text_paragraph text])].

(** A document in use, with [text] in the command cell. *)
Definition cycle_document (text : pystr) : json :=
  JDict [(py "title", JStr (py "gdoc shell"));
         (py "body",
          JDict [(py "content",
                  JList [JDict [(py "sectionBreak", JDict [])];
                         sample_paragraph 1;
                         JDict [(py "startIndex", JInt 2);
                                (py "table",
                                 JDict [(py "tableRows",
                                         JList [sample_row 3 [sample_cell 4];
                                                sample_row 9
                                                  [sample_text_cell 10 text]])])];
                         sample_paragraph 13;
                         sample_output_table;
                         sample_paragraph 50])])].

Definition sample_config : config :=
  [(py "GSHELL",
    [(py "credentials", py "credentials.json");
     (py "filename", py "gshell");
     (py "valid_commands", py "ls, pwd, touch, echo, more");
     (py "pid_path", py "/var/run/gshell.pid");
     (py "sleep_time", py "5")])].

Definition blank_config : config :=
  [(py "GSHELL", [(py "valid_commands", py " , ")])].

Definition cycle_world (text : pystr) : World :=
  mkWorld [] {[ py "/home/user/.gdoc_shell" := Dir;
                py "/home/user/.gdoc_shell/fid" := File sample_fid ]}
          [] [] {[ sample_fid := cycle_document text ]} [] sample_now [].

Definition sample_read_config : M config := ret sample_config.
Definition sample_connect (credentials : pystr) : M unit := ret tt.

(** An engine that turns every document into the sample one, and one that
    rejects every batch. *)
Definition template_engine (doc : json) (requests : list json) : option json :=
  Some sample_document.
Definition rejecting_engine (doc : json) (requests : list json) : option json :=
  None.

Definition fresh_home_world : World :=
  mkWorld [] {[ py "/home/user" := Dir ]} [] [] ∅ [] sample_now [].

Definition sample_drive (body : json) : result json :=
  Ok (JDict [(py "kind", JStr (py "drive#file")); (py "id", JStr sample_fid)]).
Definition sample_drive_no_id (body : json) : result json :=
  Ok (JDict [(py "kind", JStr (py "drive#file"))]).

(** A [stop] that finds no lock file. *)
Definition sample_stop_fails : M unit :=
  raise (FileNotFoundError (py "/var/run/gshell.pid")).

(** An [int] that reads the sample process id, and a [kill] that knows
    this one process. *)
Definition sample_int (s : pystr) : result Z :=
  if decide (strip s = py "4242") then Ok 4242%Z
  else Raise (ValueError (py "invalid literal for int() with base 10")).

Definition sample_kill (pid : Z) (signal : N) : M unit :=
  if (pid =? 4242)%Z then ret tt
  else raise (OtherError (py "ProcessLookupError")).

Definition restart_world : World :=
  mkWorld [py "gdoc_shell.py"; py "restart"] ∅ [] [] ∅ [] sample_now [].

(** A command line with a mode, run where the directory of the log is
    there and the log is not. *)
Definition log_dir_world (mode : pystr) : World :=
  mkWorld [py "gdoc_shell.py"; mode] {[ py "log" := Dir ]} [] [] ∅ []
          sample_now [].

Definition sample_parse_dashed (p : ArgumentParser) (args : list pystr)
  : parse_outcome :=
  ParseExit (py "usage: gdoc_shell.py [-h] mode") 0.

Definition sample_error_message (p : ArgumentParser) (args : list pystr)
  : pystr :=
  py "usage: gdoc_shell.py [-h] mode".

(** A file whose first line ends with a carriage return. *)
Definition carriage_return_world : World :=
  set_fs {[ py "/var/run/gshell.pid" := File (py "12" ++ [CR] ++ py "34") ]}
         empty_world.

(** * Properties *)

(** ** Whitespace splitting and trimming *)

Lemma split_from_empty (s tok : pystr) :
  split_from tok s = [] <-> tok = [] /\ blank s = true.
Proof.
  revert tok. induction s as [|c s IH]; intros tok; simpl.
  - destruct tok; split; try easy; intros [H _]; discriminate H.
  - destruct (isspace c) eqn:Hc; simpl.
    + destruct tok as [|t tok].
      * rewrite IH. tauto.
      * split; [discriminate | intros [H _]; discriminate H].
    + rewrite IH. split.
      * intros [H _]. destruct tok; discriminate H.
      * intros [_ H]. discriminate H.
Qed.

Lemma split_blank (s : pystr) : split s = [] <-> blank s = true.
Proof. unfold split. rewrite split_from_empty. tauto. Qed.

(** Every token is non-empty and free of whitespace. *)
Lemma split_from_tokens (s tok : pystr) :
  forallb (fun c => negb (isspace c)) tok = true ->
  Forall (fun t => t <> [] /\ forallb (fun c => negb (isspace c)) t = true)
         (split_from tok s).
Proof.
  revert tok. induction s as [|c s IH]; intros tok Htok; simpl.
  - destruct tok; constructor; [split; [discriminate | exact Htok] | constructor].
  - destruct (isspace c) eqn:Hc.
    + destruct tok as [|t tok].
      * apply IH. reflexivity.
      * constructor; [split; [discriminate | exact Htok] | apply IH; reflexivity].
    + apply IH. rewrite forallb_app, Htok. simpl. rewrite Hc. reflexivity.
Qed.

Lemma split_tokens (s : pystr) :
  Forall (fun t => t <> [] /\ forallb (fun c => negb (isspace c)) t = true)
         (split s).
Proof. apply split_from_tokens. reflexivity. Qed.

(** [lstrip] removes a whitespace prefix and stops at the first character
    that is not whitespace. *)
Lemma lstrip_spec (s : pystr) :
  exists l, s = l ++ lstrip s /\ blank l = true
            /\ match lstrip s with [] => True | c :: _ => isspace c = false end.
Proof.
  induction s as [|c s (l & Heq & Hl & Hhd)]; simpl.
  - exists []. auto.
  - destruct (isspace c) eqn:Hc.
    + exists (c :: l). simpl. rewrite Hc, Hl. split; [congruence | auto].
    + exists []. auto.
Qed.

Lemma rstrip_spec (s : pystr) :
  exists r, s = rstrip s ++ r /\ blank r = true
            /\ match last (rstrip s) with None => True | Some c => isspace c = false end.
Proof.
  unfold rstrip. destruct (lstrip_spec (rev s)) as (l & Heq & Hl & Hhd).
  exists (rev l). split; [|split].
  - rewrite <- rev_app_distr, <- Heq, rev_involutive. reflexivity.
  - unfold blank in *. rewrite forallb_forall in *. intros x Hx.
    apply Hl. apply in_rev. exact Hx.
  - destruct (lstrip (rev s)) as [|c t]; simpl; [exact I|].
    rewrite last_snoc. exact Hhd.
Qed.

Lemma lstrip_no_space_head (s : pystr) :
  match s with [] => True | c :: _ => isspace c = false end -> lstrip s = s.
Proof. destruct s as [|c s]; simpl; [reflexivity|]. intros ->. reflexivity. Qed.

(** [strip] cuts a whitespace prefix and a whitespace suffix off, and what
    is left neither starts nor ends with whitespace. *)
Lemma strip_spec (s : pystr) :
  exists l r, s = l ++ strip s ++ r /\ blank l = true /\ blank r = true
              /\ match strip s with [] => True | c :: _ => isspace c = false end
              /\ match last (strip s) with None => True | Some c => isspace c = false end.
Proof.
  unfold strip.
  destruct (lstrip_spec s) as (l & Heq & Hl & Hhd).
  destruct (rstrip_spec (lstrip s)) as (r & Heq' & Hr & Hlast).
  exists l, r. repeat split; auto.
  - rewrite <- Heq'. exact Heq.
  - destruct (rstrip (lstrip s)) as [|c t] eqn:E; [exact I|].
    rewrite Heq' in Hhd. exact Hhd.
Qed.

(** ** The command gate *)

Section Gate.

Variable child : list pystr -> gmap pystr node -> child_outcome.

Lemma execute_command_rejected cmd valid w prog rest :
  split cmd = prog :: rest -> prog ∉ valid ->
  _execute_command child cmd valid w
  = (Ok (Some OUTPUT_INVALID_CMD),
     set_log (w_log w ++ [mkLog WARNING WARNING_FORMAT [cmd]]) w).
Proof.
  intros Hsplit Hnot. unfold _execute_command. rewrite Hsplit.
  rewrite bool_decide_eq_true_2 by exact Hnot. reflexivity.
Qed.

(** What a whitelisted command does, case by case. *)
Lemma execute_command_allowed cmd valid w prog rest :
  split cmd = prog :: rest -> prog ∈ valid ->
  let w1 := set_spawned (w_spawned w ++ [prog :: rest]) w in
  _execute_command child cmd valid w =
  match child (prog :: rest) (w_fs w) with
  | ChildRaised e => (Raise e, w1)
  | ChildExited cp fs' =>
      match utf8_decode (stdout cp) with
      | None => (Raise UnicodeDecodeError, set_fs fs' w1)
      | Some s =>
          (Ok (Some (match strip s with [] => OUTPUT_NO_OUTPUT | _ => strip s end)),
           set_log (w_log w ++ [mkLog INFO (py "Output for command %s: %s")
                                  [cmd; strip s]])
                   (set_fs fs' w1))
      end
  end.
Proof.
  intros Hsplit Hin. unfold _execute_command. rewrite Hsplit.
  rewrite bool_decide_eq_false_2 by (intros Hn; exact (Hn Hin)).
  unfold bind at 1. unfold subprocess_run.
  destruct (child (prog :: rest) (w_fs w)) as [e|cp fs']; [reflexivity|].
  unfold bind at 1. unfold decode.
  destruct (utf8_decode (stdout cp)) as [s|]; reflexivity.
Qed.

Lemma spawned_by_spec cmd valid w prog rest :
  split cmd = prog :: rest ->
  spawned_by child cmd valid w
  = if bool_decide (prog ∈ valid) then [prog :: rest] else [].
Proof.
  intros Hsplit. unfold spawned_by. case_bool_decide as Hin.
  - rewrite (execute_command_allowed _ _ _ _ _ Hsplit Hin).
    destruct (child (prog :: rest) (w_fs w)) as [e|cp fs'];
      [|destruct (utf8_decode (stdout cp))];
      simpl; apply drop_app_length.
  - rewrite (execute_command_rejected _ _ _ _ _ Hsplit Hin).
    simpl. apply drop_all.
Qed.

Lemma execute_command_not_empty cmd valid w :
  fst (_execute_command child cmd valid w) <> Ok (Some []).
Proof.
  destruct (split cmd) as [|prog rest] eqn:Hsplit.
  - unfold _execute_command. rewrite Hsplit. discriminate.
  - destruct (decide (prog ∈ valid)) as [Hin|Hnot].
    + rewrite (execute_command_allowed _ _ _ _ _ Hsplit Hin).
      destruct (child (prog :: rest) (w_fs w)) as [e|cp fs'];
        [discriminate|].
      destruct (utf8_decode (stdout cp)) as [s|]; [|discriminate].
      simpl. destruct (strip s); discriminate.
    + rewrite (execute_command_rejected _ _ _ _ _ Hsplit Hnot). discriminate.
Qed.

(** C1: a command whose first token is not whitelisted yields the
    invalid-command sentinel [OUTPUT_INVALID_CMD], and no subprocess is
    spawned: the only effect is the warning sent to the logger. *)
Theorem execute_command_invalid_no_spawn cmd valid w prog rest :
  split cmd = prog :: rest -> prog ∉ valid ->
  fst (_execute_command child cmd valid w) = Ok (Some OUTPUT_INVALID_CMD)
  /\ w_spawned (snd (_execute_command child cmd valid w)) = w_spawned w
  /\ spawned_by child cmd valid w = []
  /\ snd (_execute_command child cmd valid w)
     = set_log (w_log w ++ [mkLog WARNING WARNING_FORMAT [cmd]]) w.
Proof.
  intros Hsplit Hnot.
  rewrite (spawned_by_spec _ _ _ _ _ Hsplit).
  rewrite bool_decide_eq_false_2 by exact Hnot.
  rewrite (execute_command_rejected _ _ _ _ _ Hsplit Hnot).
  repeat split.
Qed.

(** C2: an empty or whitespace-only command yields [None] for every
    whitelist, leaving the world as it was; [None] differs from both
    sentinel strings. *)
Theorem execute_command_blank_none cmd valid w :
  blank cmd = true ->
  _execute_command child cmd valid w = (Ok None, w)
  /\ (None : option pystr) <> Some OUTPUT_INVALID_CMD
  /\ (None : option pystr) <> Some OUTPUT_NO_OUTPUT.
Proof.
  intros Hblank. apply split_blank in Hblank.
  unfold _execute_command. rewrite Hblank.
  repeat split; discriminate.
Qed.

(** C3: a whitelisted command whose child process completes with
    standard output decoding to [s] yields [strip s] when that is not
    empty and the no-output sentinel otherwise, never the empty string. *)
Theorem execute_command_output cmd valid w prog rest cp fs' s :
  split cmd = prog :: rest -> prog ∈ valid ->
  child (prog :: rest) (w_fs w) = ChildExited cp fs' ->
  utf8_decode (stdout cp) = Some s ->
  let r := fst (_execute_command child cmd valid w) in
  (strip s <> [] -> r = Ok (Some (strip s)))
  /\ (strip s = [] -> r = Ok (Some OUTPUT_NO_OUTPUT))
  /\ r <> Ok (Some []).
Proof.
  intros Hsplit Hin Hchild Hdec r. subst r.
  split; [|split]; [| |apply execute_command_not_empty].
  - intros Hne. rewrite (execute_command_allowed _ _ _ _ _ Hsplit Hin).
    rewrite Hchild, Hdec. simpl. destruct (strip s); [contradiction|reflexivity].
  - intros He. rewrite (execute_command_allowed _ _ _ _ _ Hsplit Hin).
    rewrite Hchild, Hdec. simpl. rewrite He. reflexivity.
Qed.

(** C9: whether a process is spawned depends on the first token alone:
    two commands with the same first token get the same decision, which
    is the membership of that token in the whitelist, whatever the other
    tokens are; an allowed command is forwarded with all its tokens. *)
Theorem gate_depends_on_first_token valid c1 c2 w1 w2 prog rest1 rest2 :
  split c1 = prog :: rest1 -> split c2 = prog :: rest2 ->
  (spawned_by child c1 valid w1 <> [] <-> spawned_by child c2 valid w2 <> [])
  /\ (spawned_by child c1 valid w1 <> [] <-> prog ∈ valid)
  /\ (prog ∈ valid ->
      spawned_by child c1 valid w1 = [prog :: rest1]
      /\ spawned_by child c2 valid w2 = [prog :: rest2])
  /\ (prog ∉ valid ->
      fst (_execute_command child c1 valid w1) = Ok (Some OUTPUT_INVALID_CMD)
      /\ fst (_execute_command child c2 valid w2) = Ok (Some OUTPUT_INVALID_CMD)).
Proof.
  intros H1 H2.
  rewrite (spawned_by_spec _ _ _ _ _ H1), (spawned_by_spec _ _ _ _ _ H2).
  case_bool_decide as Hin.
  - repeat split; try discriminate; try tauto; intros Hn; contradiction.
  - split; [tauto|]. split; [tauto|]. split; [intros Hn; contradiction|].
    intros _.
    rewrite (execute_command_rejected _ _ _ _ _ H1 Hin).
    rewrite (execute_command_rejected _ _ _ _ _ H2 Hin).
    split; reflexivity.
Qed.

End Gate.

(** ** The document mutator *)

Lemma index_list_nat {A} (l : list A) (i : nat) (x : A) :
  l !! i = Some x -> index_list l (Z.of_nat i) = Ok x.
Proof.
  intros Hl. unfold index_list.
  assert (Hlt : (i < length l)%nat) by (eapply lookup_lt_Some; exact Hl).
  destruct (Z.ltb_spec (Z.of_nat i) 0) as [Hneg|_]; [lia|].
  destruct (Z.leb_spec 0 (Z.of_nat i)) as [_|Hneg]; [|lia].
  destruct (Z.ltb_spec (Z.of_nat i) (Z.of_nat (length l))) as [_|Hge]; [|lia].
  simpl. rewrite Nat2Z.id, Hl. reflexivity.
Qed.

(** A negative index counts from the end of the list. *)
Lemma index_list_from_end {A} (pre post : list A) (x : A) :
  index_list (pre ++ x :: post) (- Z.of_nat (S (length post))) = Ok x.
Proof.
  unfold index_list. rewrite length_app. simpl length.
  destruct (Z.ltb_spec (- Z.of_nat (S (length post))) 0) as [_|Hpos]; [|lia].
  set (j := (- Z.of_nat (S (length post))
             + Z.of_nat (length pre + S (length post)))%Z).
  assert (Hj : j = Z.of_nat (length pre)) by (unfold j; lia).
  rewrite Hj.
  destruct (Z.leb_spec 0 (Z.of_nat (length pre))) as [_|Hneg]; [|lia].
  destruct (Z.ltb_spec (Z.of_nat (length pre))
              (Z.of_nat (length pre + S (length post)))) as [_|Hge]; [|lia].
  simpl. rewrite Nat2Z.id, list_lookup_middle by reflexivity. reflexivity.
Qed.

Lemma getitem_has_key k v d : has_key k v d -> getitem d k = Ok v.
Proof. intros (items & -> & H). simpl. rewrite H. reflexivity. Qed.

Section Mutator.

Variable docs_engine : json -> list json -> option json.

(** C4: with [output] being [None], [_write_output] does nothing: the
    document is not fetched, no batch is submitted, the world is left as
    it was. *)
Theorem write_output_none_noop (cmd fid : pystr) (w : World) :
  _write_output docs_engine cmd None fid w = (Ok tt, w)
  /\ w_api (snd (_write_output docs_engine cmd None fid w)) = w_api w
  /\ w_docs (snd (_write_output docs_engine cmd None fid w)) = w_docs w.
Proof. repeat split. Qed.

Lemma write_output_some cmd out fid w doc ts rows_before c0 c1 c2 :
  w_docs w !! fid = Some doc ->
  output_table_shape doc ts rows_before c0 c1 c2 ->
  _write_output docs_engine cmd (Some out) fid w
  = _batch_update docs_engine fid
      [ insert_text_request (JInt (c2 + 1))
          (strftime_DATETIME_FORMAT (w_now w));
        insert_text_request (JInt (c1 + 1)) out;
        insert_text_request (JInt (c0 + 1)) cmd;
        insert_row_below ts (Z.of_nat (length rows_before)) ]
      (set_api (w_api w ++ [DocumentsGet fid]) w).
Proof.
  intros Hdoc (body & pre & tbl & trailing & t & last_row & cell0 & cell1
               & cell2 & more & Hbody & Hcontent & Hts & Ht & Hrows & Hcells
               & H0 & H1 & H2).
  unfold _write_output.
  unfold bind at 1. unfold documents_get. rewrite Hdoc.
  rewrite (getitem_has_key _ _ _ Hbody). simpl rbind.
  rewrite (getitem_has_key _ _ _ Hcontent). simpl rbind.
  change (index_list (pre ++ [tbl; trailing]) (-2))
    with (index_list (pre ++ tbl :: [trailing])
            (- Z.of_nat (S (length [trailing])))).
  rewrite index_list_from_end.
  unfold bind at 1, lift at 1.
  rewrite (getitem_has_key _ _ _ Ht). simpl rbind.
  rewrite (getitem_has_key _ _ _ Hrows). simpl rbind.
  change (index_list (rows_before ++ [last_row]) (-1))
    with (index_list (rows_before ++ last_row :: [])
            (- Z.of_nat (S (length (@nil json))))).
  rewrite index_list_from_end. simpl rbind.
  rewrite (getitem_has_key _ _ _ Hcells).
  unfold bind at 1, lift at 1. simpl rbind.
  rewrite (index_list_nat (cell0 :: cell1 :: cell2 :: more) 2 cell2 eq_refl
           : index_list _ 2 = _).
  rewrite (index_list_nat (cell0 :: cell1 :: cell2 :: more) 1 cell1 eq_refl
           : index_list _ 1 = _).
  simpl rbind.
  rewrite (getitem_has_key _ _ _ H2), (getitem_has_key _ _ _ H1),
    (getitem_has_key _ _ _ H0), (getitem_has_key _ _ _ Hts).
  simpl rbind. unfold bind, lift, datetime_now, gets.
  rewrite length_app. simpl length.
  replace (Z.of_nat (length rows_before + 1) - 1)%Z
    with (Z.of_nat (length rows_before)) by lia.
  reflexivity.
Qed.

(** C5: with an output, [_write_output] fetches the document and submits
    one batch of four requests, in this order: the insertion of the
    datetime string at the offset of column 2 of the last row of the output
    table, that of the output string at the offset of column 1, that of
    the command string at the offset of column 0, and last the insertion
    of a row below the last row.  The three text offsets descend when the
    cells of the row start at increasing offsets. *)
Theorem write_output_batch cmd out fid w doc ts rows_before c0 c1 c2 :
  w_docs w !! fid = Some doc ->
  output_table_shape doc ts rows_before c0 c1 c2 ->
  let batch :=
    [ insert_text_request (JInt (c2 + 1))
        (strftime_DATETIME_FORMAT (w_now w));
      insert_text_request (JInt (c1 + 1)) out;
      insert_text_request (JInt (c0 + 1)) cmd;
      insert_row_below ts (Z.of_nat (length rows_before)) ] in
  w_api (snd (_write_output docs_engine cmd (Some out) fid w))
  = w_api w ++ [DocumentsGet fid; DocumentsBatchUpdate fid batch]
  /\ length batch = 4%nat
  /\ map insert_offset batch
     = [Some (c2 + 1); Some (c1 + 1); Some (c0 + 1); None]%Z
  /\ map inserted_text batch
     = [Some (strftime_DATETIME_FORMAT (w_now w)); Some out; Some cmd; None]
  /\ ((c0 < c1 < c2)%Z -> (c0 + 1 < c1 + 1 < c2 + 1)%Z).
Proof.
  intros Hdoc Hshape batch.
  rewrite (write_output_some _ _ _ _ _ _ _ _ _ _ Hdoc Hshape).
  fold batch.
  split; [|split; [reflexivity|split; [reflexivity|split; [reflexivity|lia]]]].
  unfold _batch_update. cbn [w_docs w_api set_api].
  rewrite Hdoc. rewrite <- app_assoc.
  destruct (docs_engine doc batch); reflexivity.
Qed.

End Mutator.

(** ** Local state: the setup test and the single-line files *)

(** C6: [needs_setup] answers true exactly when the storage directory, the
    file-id file or the token file is absent; it changes nothing. *)
Theorem needs_setup_iff_absent (path fid_path token_path : pystr) (w : World) :
  exists b : bool,
    needs_setup path fid_path token_path w = (Ok b, w)
    /\ (b = true <->
        w_fs w !! path = None \/ w_fs w !! fid_path = None
        \/ w_fs w !! token_path = None).
Proof.
  unfold needs_setup, bind, os_path_exists, gets, ret.
  destruct (w_fs w !! path) as [n|]; simpl.
  - destruct (w_fs w !! fid_path) as [n1|]; simpl.
    + destruct (w_fs w !! token_path) as [n2|]; simpl;
        eexists; (split; [reflexivity|]).
      * split; [discriminate|]. intros [H|[H|H]]; discriminate H.
      * split; auto.
    + eexists. split; [reflexivity|]. split; auto.
  - eexists. split; [reflexivity|]. split; auto.
Qed.

Lemma readline_app_single_line (s rest : pystr) :
  single_line s = true -> readline (s ++ rest) = s ++ readline rest.
Proof.
  induction s as [|c s IH]; simpl; [reflexivity|].
  intros H. apply andb_prop in H as [Hc Hs].
  unfold line_char in Hc. apply andb_prop in Hc as [Hlf Hcr].
  apply negb_true_iff in Hlf, Hcr. rewrite Hlf, Hcr, IH by exact Hs.
  reflexivity.
Qed.

Lemma readline_single_line (s : pystr) :
  single_line s = true -> readline s = s.
Proof.
  intros H. rewrite <- (app_nil_r s) at 1.
  rewrite readline_app_single_line by exact H. simpl. apply app_nil_r.
Qed.

(** [readline] gives the longest terminator-free prefix as it stands,
    followed by one line feed when a terminator comes after it. *)
Lemma readline_spec (text : pystr) :
  exists body rest,
    single_line body = true /\ text = body ++ rest
    /\ ((rest = [] /\ readline text = body)
        \/ (exists c rest', rest = c :: rest' /\ line_char c = false
                            /\ readline text = body ++ [LF])).
Proof.
  induction text as [|c text (body & rest & Hb & Heq & Hcase)].
  - exists [], []. repeat split. left. split; reflexivity.
  - destruct (line_char c) eqn:Hc.
    + exists (c :: body), rest. simpl. rewrite Hc, Hb.
      split; [reflexivity|]. split; [congruence|].
      unfold line_char in Hc. apply andb_prop in Hc as [Hlf Hcr].
      apply negb_true_iff in Hlf, Hcr. rewrite Hlf, Hcr.
      destruct Hcase as [[-> Hr]|(c' & rest' & -> & Hc' & Hr)].
      * left. split; [reflexivity|congruence].
      * right. exists c', rest'. repeat split; [exact Hc'|congruence].
    + exists [], (c :: text). split; [reflexivity|]. split; [reflexivity|].
      right. exists c, text. repeat split; [exact Hc|].
      unfold line_char in Hc. simpl.
      destruct (c =? LF); [reflexivity|]. destruct (c =? CR); [reflexivity|].
      discriminate Hc.
Qed.

(** Without carriage returns in the file, the line read is a prefix of the
    stored text, character for character. *)
Lemma readline_prefix (text : pystr) :
  forallb (fun c => negb (c =? CR)) text = true ->
  exists rest, text = readline text ++ rest.
Proof.
  induction text as [|c text IH]; simpl; [exists []; reflexivity|].
  intros H. apply andb_prop in H as [Hc Ht]. apply negb_true_iff in Hc.
  rewrite Hc. destruct (N.eqb_spec c LF) as [->|Hne].
  - exists text. reflexivity.
  - destruct (IH Ht) as [rest Hrest]. exists rest. simpl. congruence.
Qed.

Lemma open_w_ok (path : pystr) (w w1 : World) :
  open_w path w = (Ok tt, w1) ->
  w1 = set_fs (<[path := File []]> (w_fs w)) w.
Proof.
  unfold open_w. intros H.
  repeat match type of H with
         | context [match ?x with _ => _ end] => destruct x
         end; congruence.
Qed.

(** Writing a text and reading the file back gives its first line. *)
Lemma write_text_read_id (path text : pystr) (w w' : World) :
  write_text path (JStr text) w = (Ok tt, w') ->
  read_id path w' = (Ok (readline text), w').
Proof.
  unfold write_text. unfold bind at 1.
  destruct (open_w path w) as [[[]|e] w1] eqn:Hopen; [|discriminate].
  apply open_w_ok in Hopen. subst w1.
  unfold file_write. destruct (forallb encodable text); [|discriminate].
  cbn [w_fs set_fs]. rewrite lookup_insert_eq.
  intros [= <-]. unfold read_id, bind, open_r. cbn [w_fs set_fs].
  rewrite lookup_insert_eq. reflexivity.
Qed.

(** C7: a single-line identifier written to a file, with nothing after it,
    is what [read_id] gives back from that file. *)
Theorem write_read_id_roundtrip (path s : pystr) (w w' : World) :
  single_line s = true ->
  write_text path (JStr s) w = (Ok tt, w') ->
  read_id path w' = (Ok s, w').
Proof.
  intros Hs Hw. rewrite (write_text_read_id _ _ _ _ Hw).
  rewrite readline_single_line by exact Hs. reflexivity.
Qed.

(** C10: [read_id] gives the first line of the file and nothing more: the
    characters before the first terminator as they are stored, and a final
    line feed when the line is terminated, whether the terminator stored
    is a line feed, a carriage return or the two in a row.  Nothing is
    trimmed, so a text stored with a line feed after its first line is
    read with it; a file without carriage returns begins with what is
    read. *)
Theorem read_id_first_line_verbatim (path text : pystr) (w : World) :
  w_fs w !! path = Some (File text) ->
  read_id path w = (Ok (readline text), w)
  /\ (exists body rest,
        single_line body = true /\ text = body ++ rest
        /\ ((rest = [] /\ readline text = body)
            \/ (exists c rest', rest = c :: rest' /\ line_char c = false
                                /\ readline text = body ++ [LF])))
  /\ (forallb (fun c => negb (c =? CR)) text = true ->
      exists rest, text = readline text ++ rest)
  /\ (forall s rest, single_line s = true -> text = s ++ LF :: rest ->
      readline text = s ++ [LF]).
Proof.
  intros Hfile. split; [|split; [apply readline_spec|split]].
  - unfold read_id, bind, open_r. rewrite Hfile. reflexivity.
  - apply readline_prefix.
  - intros s rest Hs ->. rewrite readline_app_single_line by exact Hs.
    reflexivity.
Qed.

Section CreateFile.

Variable drive_create : json -> result json.
Variable home : pystr.

(** X26: when [_create_file] returns, the identifier is a string, and
    reading the file-id file gives its first line: the identifier itself
    when it is a single line. *)
Lemma create_file_read_id (filename : pystr) (fid : json) (w w' : World) :
  _create_file drive_create home filename w = (Ok fid, w') ->
  exists s, fid = JStr s
            /\ read_id (FILE_ID_PATH home) w' = (Ok (readline s), w')
            /\ (single_line s = true ->
                read_id (FILE_ID_PATH home) w' = (Ok s, w')).
Proof.
  unfold _create_file. unfold bind at 1, lift at 1.
  destruct (drive_create _) as [response|e]; [|discriminate].
  unfold bind at 1.
  destruct response as [| | | | |items]; try discriminate.
  unfold ret at 1. unfold bind at 1.
  destruct (write_text _ _ w) as [[[]|e] w1] eqn:Hw; [|discriminate].
  intros [= <- <-].
  destruct (default JNone (assoc (py "id") items)) as [| | |s| |] eqn:Hid;
    try (unfold write_text, bind, file_write, raise in Hw;
         destruct (open_w _ w) as [[[]|?] ?]; discriminate Hw).
  exists s. split; [reflexivity|].
  pose proof (write_text_read_id _ _ _ _ Hw) as Hr. split; [exact Hr|].
  intros Hs. rewrite Hr, readline_single_line by exact Hs. reflexivity.
Qed.

End CreateFile.

(** ** The command line *)

Section CommandLine.

Variable parse_args : ArgumentParser -> list pystr -> parse_outcome.
Variable start_daemon_process : M unit.
Variable stop : M unit.

Lemma main_dispatch (w : World) namespace mode :
  parse_args the_parser (tail (w_argv w)) = Parsed namespace ->
  attr (py "mode") namespace = Some mode ->
  main parse_args start_daemon_process stop w =
  (if decide (mode = py "start") then start_daemon_process
   else if decide (mode = py "stop") then stop
   else if decide (mode = py "restart") then (stop ;; start_daemon_process)
   else raise (ValueError (py "Invalid mode."))) w.
Proof.
  intros Hparse Hattr. unfold main, bind at 1, build_parser, bind at 1, gets.
  rewrite Hparse. unfold ret at 1, bind at 1, getattr. rewrite Hattr.
  reflexivity.
Qed.

(** A command line [argparse] rejects ends the dispatch with its exit
    status, after the message is printed. *)
Lemma main_parse_exit (w : World) message status :
  parse_args the_parser (tail (w_argv w)) = ParseExit message status ->
  main parse_args start_daemon_process stop w
  = (Raise (SystemExit status), set_stderr (w_stderr w ++ [message]) w).
Proof.
  intros Hparse. unfold main, bind at 1, build_parser, bind at 1, gets.
  rewrite Hparse. reflexivity.
Qed.

(** Within the [__main__] block: when the value of [mode] is none of
    [start], [stop] and [restart], [ValueError] is raised with the world
    as the block found it. *)
Theorem main_invalid_mode (w : World) namespace mode :
  parse_args the_parser (tail (w_argv w)) = Parsed namespace ->
  attr (py "mode") namespace = Some mode ->
  mode <> py "start" -> mode <> py "stop" -> mode <> py "restart" ->
  positionals the_parser = [py "mode"]
  /\ main parse_args start_daemon_process stop w
     = (Raise (ValueError (py "Invalid mode.")), w).
Proof.
  intros Hparse Hattr Hstart Hstop Hrestart. split; [reflexivity|].
  rewrite (main_dispatch _ _ _ Hparse Hattr).
  repeat case_decide; try contradiction. reflexivity.
Qed.

End CommandLine.

(** ** Sample runs *)

Example echo_testing :
  fst (_execute_command sample_child (py "echo Testing") sample_valid empty_world)
  = Ok (Some (py "Testing")).
Proof. vm_compute. reflexivity. Qed.

Example rm_rejected :
  fst (_execute_command sample_child (py "rm -rf some") sample_valid empty_world)
  = Ok (Some OUTPUT_INVALID_CMD).
Proof. vm_compute. reflexivity. Qed.

Example no_command :
  _execute_command sample_child [] sample_valid empty_world = (Ok None, empty_world).
Proof. reflexivity. Qed.

Example touch_no_output :
  fst (_execute_command sample_child (py "touch a.txt") sample_valid empty_world)
  = Ok (Some OUTPUT_NO_OUTPUT).
Proof. vm_compute. reflexivity. Qed.

Example sample_batch :
  w_api (snd (_write_output sample_engine (py "pwd") (Some (py "/some/path"))
                sample_fid docs_world))
  = [DocumentsGet sample_fid;
     DocumentsBatchUpdate sample_fid
       [insert_text_request (JInt 49) (py "2020-01-01 12:30:05");
        insert_text_request (JInt 47) (py "/some/path");
        insert_text_request (JInt 45) (py "pwd");
        insert_row_below (JInt 14) 1]].
Proof. vm_compute. reflexivity. Qed.

Example stop_mode_runs_stop :
  main sample_parse_args sample_start sample_stop (cli_world (py "stop"))
  = sample_stop (cli_world (py "stop")).
Proof. vm_compute. reflexivity. Qed.

Example restart_mode_runs_both :
  w_log (snd (main sample_parse_args sample_start sample_stop
                (cli_world (py "restart"))))
  = [mkLog INFO (py "Shutting down daemon process.") [];
     mkLog INFO (py "Starting daemon") []].
Proof. vm_compute. reflexivity. Qed.

Example create_file_sample :
  fst (_create_file (fun _ => Ok (JDict [(py "id", JStr sample_fid)]))
         sample_home (py "gshell") home_world)
  = Ok (JStr sample_fid)
  /\ w_fs (snd (_create_file (fun _ => Ok (JDict [(py "id", JStr sample_fid)]))
                  sample_home (py "gshell") home_world))
     !! py "/home/user/.gdoc_shell/fid" = Some (File sample_fid).
Proof. split; vm_compute; reflexivity. Qed.

Example create_file_no_directory :
  fst (_create_file (fun _ => Ok (JDict [(py "id", JStr sample_fid)]))
         sample_home (py "gshell") empty_world)
  = Raise (FileNotFoundError (py "/home/user/.gdoc_shell/fid")).
Proof. vm_compute. reflexivity. Qed.

Example needs_setup_sample :
  fst (needs_setup (py "/home/user/.gdoc_shell")
         (py "/home/user/.gdoc_shell/fid") (py "/home/user/.gdoc_shell/token")
         home_world) = Ok true.
Proof. vm_compute. reflexivity. Qed.

Example readline_crlf : readline (py "12" ++ [CR; LF] ++ py "34") = py "12" ++ [LF].
Proof. reflexivity. Qed.

(** ** The theorems at the sample inputs *)

Lemma execute_command_invalid_no_spawn_witness :
  fst (_execute_command sample_child (py "rm -rf some") sample_valid empty_world)
  = Ok (Some OUTPUT_INVALID_CMD)
  /\ w_spawned (snd (_execute_command sample_child (py "rm -rf some")
                       sample_valid empty_world)) = []
  /\ spawned_by sample_child (py "rm -rf some") sample_valid empty_world = []
  /\ snd (_execute_command sample_child (py "rm -rf some") sample_valid
            empty_world)
     = set_log [mkLog WARNING WARNING_FORMAT [py "rm -rf some"]] empty_world.
Proof.
  apply (execute_command_invalid_no_spawn sample_child (py "rm -rf some")
           sample_valid empty_world (py "rm") [py "-rf"; py "some"]).
  - reflexivity.
  - apply (bool_decide_unpack _). vm_compute. reflexivity.
Defined.

Lemma execute_command_blank_none_witness :
  _execute_command sample_child (py "   ") sample_valid empty_world
  = (Ok None, empty_world)
  /\ (None : option pystr) <> Some OUTPUT_INVALID_CMD
  /\ (None : option pystr) <> Some OUTPUT_NO_OUTPUT.
Proof.
  apply (execute_command_blank_none sample_child (py "   ") sample_valid
           empty_world).
  reflexivity.
Defined.

Lemma execute_command_output_witness :
  fst (_execute_command sample_child (py "echo Testing") sample_valid empty_world)
  = Ok (Some (py "Testing")).
Proof.
  refine (proj1 (execute_command_output sample_child (py "echo Testing")
                   sample_valid empty_world (py "echo") [py "Testing"]
                   (mkCompleted 0 (py "Testing" ++ [LF]) []) ∅
                   (py "Testing" ++ [LF]) _ _ _ _) _).
  - reflexivity.
  - apply (bool_decide_unpack _). vm_compute. reflexivity.
  - reflexivity.
  - reflexivity.
  - discriminate.
Defined.

Lemma gate_depends_on_first_token_witness :
  (spawned_by sample_child (py "ls -la") sample_valid empty_world <> []
   <-> spawned_by sample_child (py "ls /etc/passwd") sample_valid docs_world <> [])
  /\ spawned_by sample_child (py "ls -la") sample_valid empty_world
     = [[py "ls"; py "-la"]]
  /\ spawned_by sample_child (py "ls /etc/passwd") sample_valid docs_world
     = [[py "ls"; py "/etc/passwd"]].
Proof.
  destruct (gate_depends_on_first_token sample_child sample_valid
              (py "ls -la") (py "ls /etc/passwd") empty_world docs_world
              (py "ls") [py "-la"] [py "/etc/passwd"] eq_refl eq_refl)
    as (Hsame & _ & Hallowed & _).
  split; [exact Hsame | apply Hallowed].
  apply (bool_decide_unpack _). vm_compute. reflexivity.
Defined.

Lemma sample_document_shape :
  output_table_shape sample_document (JInt 14) [sample_output_header] 44 46 48.
Proof.
  exists (JDict [(py "content",
                  JList [JDict [(py "sectionBreak", JDict [])];
                         sample_paragraph 1; sample_command_table;
                         sample_paragraph 13; sample_output_table;
                         sample_paragraph 50])]),
    [JDict [(py "sectionBreak", JDict [])]; sample_paragraph 1;
     sample_command_table; sample_paragraph 13],
    sample_output_table, (sample_paragraph 50),
    (JDict [(py "rows", JInt 2); (py "columns", JInt 3);
            (py "tableRows",
             JList [sample_output_header; sample_output_last_row])]),
    sample_output_last_row, (sample_cell 44), (sample_cell 46),
    (sample_cell 48), [].
  repeat split; eexists; split; reflexivity.
Defined.

Lemma write_output_batch_witness :
  w_api (snd (_write_output sample_engine (py "pwd") (Some (py "/some/path"))
                sample_fid docs_world))
  = [DocumentsGet sample_fid;
     DocumentsBatchUpdate sample_fid
       [insert_text_request (JInt 49) (py "2020-01-01 12:30:05");
        insert_text_request (JInt 47) (py "/some/path");
        insert_text_request (JInt 45) (py "pwd");
        insert_row_below (JInt 14) 1]].
Proof.
  refine (proj1 (write_output_batch sample_engine (py "pwd") (py "/some/path")
                   sample_fid docs_world sample_document (JInt 14)
                   [sample_output_header] 44 46 48 _ sample_document_shape)).
  vm_compute. reflexivity.
Defined.

Lemma write_read_id_roundtrip_witness :
  read_id (py "/home/user/.gdoc_shell/fid")
    (snd (write_text (py "/home/user/.gdoc_shell/fid") (JStr sample_fid)
            home_world))
  = (Ok sample_fid,
     snd (write_text (py "/home/user/.gdoc_shell/fid") (JStr sample_fid)
            home_world)).
Proof.
  apply (write_read_id_roundtrip (py "/home/user/.gdoc_shell/fid") sample_fid
           home_world).
  - reflexivity.
  - vm_compute. reflexivity.
Defined.

Lemma read_id_first_line_verbatim_witness :
  read_id (py "/var/run/gshell.pid") home_world
  = (Ok (py "4242" ++ [LF]), home_world).
Proof.
  refine (proj1 (read_id_first_line_verbatim (py "/var/run/gshell.pid")
                   (py "4242" ++ [LF]) home_world _)).
  vm_compute. reflexivity.
Defined.

Lemma main_invalid_mode_witness :
  positionals the_parser = [py "mode"]
  /\ main sample_parse_args sample_start sample_stop (cli_world (py "status"))
     = (Raise (ValueError (py "Invalid mode.")), cli_world (py "status")).
Proof.
  apply (main_invalid_mode sample_parse_args sample_start sample_stop
           (cli_world (py "status")) [(py "mode", py "status")] (py "status"));
    [reflexivity | reflexivity | discriminate | discriminate | discriminate].
Defined.

(** * Further properties *)

(** ** More on the command gate *)

Lemma OUTPUT_INVALID_CMD_trimmed :
  OUTPUT_INVALID_CMD <> [] /\ lstrip OUTPUT_INVALID_CMD = OUTPUT_INVALID_CMD
  /\ rstrip OUTPUT_INVALID_CMD = OUTPUT_INVALID_CMD.
Proof. repeat split; [discriminate | vm_compute; reflexivity..]. Qed.

Lemma OUTPUT_NO_OUTPUT_trimmed :
  OUTPUT_NO_OUTPUT <> [] /\ lstrip OUTPUT_NO_OUTPUT = OUTPUT_NO_OUTPUT
  /\ rstrip OUTPUT_NO_OUTPUT = OUTPUT_NO_OUTPUT.
Proof. repeat split; [discriminate | vm_compute; reflexivity..]. Qed.

Lemma lstrip_idempotent (s : pystr) : lstrip (lstrip s) = lstrip s.
Proof.
  induction s as [|c s IH]; simpl; [reflexivity|].
  destruct (isspace c) eqn:Hc; [exact IH|]. simpl. rewrite Hc. reflexivity.
Qed.

Lemma rstrip_idempotent (s : pystr) : rstrip (rstrip s) = rstrip s.
Proof.
  unfold rstrip. rewrite rev_involutive, lstrip_idempotent. reflexivity.
Qed.

(** Cutting the end off does not bring whitespace to the front. *)
Lemma lstrip_rstrip_fixed (s : pystr) :
  lstrip s = s -> lstrip (rstrip s) = rstrip s.
Proof.
  intros Hs. destruct (rstrip_spec s) as (r & Heq & _ & _).
  destruct (rstrip s) as [|c t] eqn:E; [reflexivity|].
  rewrite Heq in Hs. simpl in Hs. simpl.
  destruct (isspace c) eqn:Hc; [|reflexivity].
  exfalso. destruct (lstrip_spec (t ++ r)) as (l & Hl & _).
  rewrite Hs in Hl. apply (f_equal (@length N)) in Hl.
  rewrite !length_app in Hl. simpl in Hl. rewrite ?length_app in Hl. lia.
Qed.

Lemma strip_fixed (s : pystr) :
  lstrip (strip s) = strip s /\ rstrip (strip s) = strip s.
Proof.
  unfold strip. split.
  - apply lstrip_rstrip_fixed, lstrip_idempotent.
  - apply rstrip_idempotent.
Qed.

Lemma lstrip_blank (s : pystr) : blank s = true -> lstrip s = [].
Proof.
  induction s as [|c s IH]; simpl; [reflexivity|].
  intros H. apply andb_prop in H as [Hc Hs]. rewrite Hc. exact (IH Hs).
Qed.

Lemma strip_blank (s : pystr) : blank s = true -> strip s = [].
Proof. intros H. unfold strip. rewrite (lstrip_blank _ H). reflexivity. Qed.

Section GateMore.

Variable child : list pystr -> gmap pystr node -> child_outcome.

(** X1: what reaches [subprocess.run] is the token list of the command
    and nothing else: its first token is whitelisted, no argument is empty
    and none holds whitespace, so quoting cannot keep two words together. *)
Theorem spawned_arguments_are_tokens cmd valid w args :
  args ∈ spawned_by child cmd valid w ->
  args = split cmd
  /\ (exists prog rest, args = prog :: rest /\ prog ∈ valid)
  /\ Forall (fun t => t <> [] /\ forallb (fun c => negb (isspace c)) t = true)
            args.
Proof.
  intros Hin. destruct (split cmd) as [|prog rest] eqn:Hsplit.
  - unfold spawned_by, _execute_command in Hin. rewrite Hsplit in Hin.
    simpl in Hin. rewrite drop_all in Hin. inversion Hin.
  - rewrite (spawned_by_spec _ _ _ _ _ _ Hsplit) in Hin.
    case_bool_decide as Hvalid; [|inversion Hin].
    apply list_elem_of_singleton in Hin. subst args.
    split; [reflexivity|]. split; [eauto|].
    rewrite <- Hsplit. apply split_tokens.
Qed.

(** X3: a string returned by [_execute_command] is never empty and never
    starts or ends with whitespace. *)
Theorem execute_command_result_trimmed cmd valid w s :
  fst (_execute_command child cmd valid w) = Ok (Some s) ->
  s <> [] /\ lstrip s = s /\ rstrip s = s.
Proof.
  destruct (split cmd) as [|prog rest] eqn:Hsplit.
  - unfold _execute_command. rewrite Hsplit. discriminate.
  - destruct (decide (prog ∈ valid)) as [Hin|Hnot].
    + rewrite (execute_command_allowed _ _ _ _ _ _ Hsplit Hin).
      destruct (child (prog :: rest) (w_fs w)) as [e|cp fs'];
        [discriminate|].
      destruct (utf8_decode (stdout cp)) as [out|]; [|discriminate].
      simpl. destruct (strip out) as [|c t] eqn:E.
      * intros [= <-]. apply OUTPUT_NO_OUTPUT_trimmed.
      * intros [= <-]. rewrite <- E. split; [rewrite E; discriminate|].
        apply strip_fixed.
    + rewrite (execute_command_rejected _ _ _ _ _ _ Hsplit Hnot).
      intros [= <-]. apply OUTPUT_INVALID_CMD_trimmed.
Qed.

(** X4: when the standard output of a whitelisted command is not valid
    UTF-8, [_execute_command] raises [UnicodeDecodeError] after the process
    has run: the spawn and the files the process left stay, and nothing is
    logged. *)
Theorem execute_command_undecodable cmd valid w prog rest cp fs' :
  split cmd = prog :: rest -> prog ∈ valid ->
  child (prog :: rest) (w_fs w) = ChildExited cp fs' ->
  utf8_decode (stdout cp) = None ->
  _execute_command child cmd valid w
  = (Raise UnicodeDecodeError,
     set_fs fs' (set_spawned (w_spawned w ++ [prog :: rest]) w)).
Proof.
  intros Hsplit Hin Hchild Hdec.
  rewrite (execute_command_allowed _ _ _ _ _ _ Hsplit Hin), Hchild, Hdec.
  reflexivity.
Qed.

(** X5: a whitelisted program that cannot be run makes [_execute_command]
    raise what [subprocess.run] raised; the attempt is on record and
    nothing is logged. *)
Theorem execute_command_child_raises cmd valid w prog rest e :
  split cmd = prog :: rest -> prog ∈ valid ->
  child (prog :: rest) (w_fs w) = ChildRaised e ->
  _execute_command child cmd valid w
  = (Raise e, set_spawned (w_spawned w ++ [prog :: rest]) w).
Proof.
  intros Hsplit Hin Hchild.
  rewrite (execute_command_allowed _ _ _ _ _ _ Hsplit Hin), Hchild.
  reflexivity.
Qed.

End GateMore.

(** X2: the exit status and the standard error of the child play no part:
    two systems whose child processes print the same standard output give
    the same result. *)
Theorem execute_command_ignores_exit_status child1 child2 cmd valid w
    cp1 cp2 fs1 fs2 :
  child1 (split cmd) (w_fs w) = ChildExited cp1 fs1 ->
  child2 (split cmd) (w_fs w) = ChildExited cp2 fs2 ->
  stdout cp1 = stdout cp2 ->
  fst (_execute_command child1 cmd valid w)
  = fst (_execute_command child2 cmd valid w).
Proof.
  intros H1 H2 Hout. destruct (split cmd) as [|prog rest] eqn:Hsplit.
  - unfold _execute_command. rewrite Hsplit. reflexivity.
  - destruct (decide (prog ∈ valid)) as [Hin|Hnot].
    + rewrite !(execute_command_allowed _ _ _ _ _ _ Hsplit Hin), H1, H2, Hout.
      destruct (utf8_decode (stdout cp2)); reflexivity.
    + rewrite !(execute_command_rejected _ _ _ _ _ _ Hsplit Hnot).
      reflexivity.
Qed.

(** ** More on the document mutator *)

Lemma bind_lift {A B} (r : result A) (k : A -> M B) (w : World) :
  bind (lift r) k w
  = match r with Ok a => k a w | Raise e => (Raise e, w) end.
Proof. unfold bind, lift. destruct r; reflexivity. Qed.

Lemma batch_update_api docs_engine fid requests w :
  w_api (snd (_batch_update docs_engine fid requests w))
  = w_api w ++ [DocumentsBatchUpdate fid requests].
Proof.
  unfold _batch_update. destruct (w_docs w !! fid) as [doc|]; [|reflexivity].
  destruct (docs_engine doc requests); reflexivity.
Qed.

Section MutatorMore.

Variable docs_engine : json -> list json -> option json.

(** X6: whatever the document looks like, [_write_output] with an output
    fetches the document once and then either raises with nothing
    submitted and no document changed, or submits one batch of four
    requests: the insertions of the datetime string, of the output and of
    the command, in this order, followed by one row insertion. *)
Theorem write_output_one_get_at_most_one_batch cmd out fid w :
  let r := _write_output docs_engine cmd (Some out) fid w in
  ((exists e, fst r = Raise e)
   /\ snd r = set_api (w_api w ++ [DocumentsGet fid]) w)
  \/ (exists i2 i1 i0 ts n,
        w_api (snd r)
        = w_api w ++ [DocumentsGet fid;
                      DocumentsBatchUpdate fid
                        [insert_text_request i2
                           (strftime_DATETIME_FORMAT (w_now w));
                         insert_text_request i1 out;
                         insert_text_request i0 cmd;
                         insert_row_below ts n]]).
Proof.
  cbv zeta. remember (_write_output docs_engine cmd (Some out) fid w) as r eqn:Hr.
  unfold _write_output in Hr.
  unfold bind at 1 in Hr. unfold documents_get in Hr.
  destruct (w_docs w !! fid) as [doc|];
    [|left; subst r; split; [eauto|reflexivity]].
  repeat (rewrite bind_lift in Hr;
          match type of Hr with
          | context [match ?x with Ok _ => _ | Raise _ => _ end] =>
              destruct x; [|left; subst r; split; [eauto|reflexivity]]
          end).
  unfold bind at 1, datetime_now, gets in Hr.
  repeat (rewrite bind_lift in Hr;
          match type of Hr with
          | context [match ?x with Ok _ => _ | Raise _ => _ end] =>
              destruct x; [|left; subst r; split; [eauto|reflexivity]]
          end).
  right. subst r. do 5 eexists. rewrite batch_update_api. cbn [w_api set_api].
  rewrite <- app_assoc. reflexivity.
Qed.

(** X7: a document whose body holds fewer than two blocks makes
    [_write_output] raise [IndexError] after the fetch; no batch is
    submitted. *)
Theorem write_output_short_document cmd out fid w doc body blocks :
  w_docs w !! fid = Some doc ->
  has_key (py "body") body doc ->
  has_key (py "content") (JList blocks) body ->
  (length blocks < 2)%nat ->
  _write_output docs_engine cmd (Some out) fid w
  = (Raise IndexError, set_api (w_api w ++ [DocumentsGet fid]) w).
Proof.
  intros Hdoc Hbody Hcontent Hlen. unfold _write_output.
  unfold bind at 1. unfold documents_get. rewrite Hdoc.
  rewrite bind_lift, (getitem_has_key _ _ _ Hbody). simpl rbind.
  rewrite (getitem_has_key _ _ _ Hcontent). simpl rbind.
  unfold index_list. change (-2 <? 0)%Z with true. cbv iota.
  destruct (Z.leb_spec 0 (-2 + Z.of_nat (length blocks))) as [Hge|_]; [lia|].
  reflexivity.
Qed.

(** X8: a last row of fewer than three cells makes [_write_output] raise
    [IndexError] after the fetch; no batch is submitted. *)
Theorem write_output_short_row cmd out fid w doc body blocks_before tbl
    trailing t rows_before last_row cells :
  w_docs w !! fid = Some doc ->
  has_key (py "body") body doc ->
  has_key (py "content") (JList (blocks_before ++ [tbl; trailing])) body ->
  has_key (py "table") t tbl ->
  has_key (py "tableRows") (JList (rows_before ++ [last_row])) t ->
  has_key (py "tableCells") (JList cells) last_row ->
  (length cells < 3)%nat ->
  _write_output docs_engine cmd (Some out) fid w
  = (Raise IndexError, set_api (w_api w ++ [DocumentsGet fid]) w).
Proof.
  intros Hdoc Hbody Hcontent Ht Hrows Hcells Hlen. unfold _write_output.
  unfold bind at 1. unfold documents_get. rewrite Hdoc.
  rewrite bind_lift, (getitem_has_key _ _ _ Hbody). simpl rbind.
  rewrite (getitem_has_key _ _ _ Hcontent). simpl rbind.
  change (index_list (blocks_before ++ [tbl; trailing]) (-2))
    with (index_list (blocks_before ++ tbl :: [trailing])
            (- Z.of_nat (S (length [trailing])))).
  rewrite index_list_from_end.
  rewrite bind_lift, (getitem_has_key _ _ _ Ht). simpl rbind.
  rewrite (getitem_has_key _ _ _ Hrows). simpl rbind.
  change (index_list (rows_before ++ [last_row]) (-1))
    with (index_list (rows_before ++ last_row :: [])
            (- Z.of_nat (S (length (@nil json))))).
  rewrite index_list_from_end. simpl rbind.
  rewrite (getitem_has_key _ _ _ Hcells).
  rewrite bind_lift. unfold getindex, index_list.
  change (2 <? 0)%Z with false. cbv iota.
  destruct (Z.ltb_spec 2 (Z.of_nat (length cells))) as [Hlt|_]; [lia|].
  rewrite andb_false_r. reflexivity.
Qed.

End MutatorMore.

(** ** Reading the command and writing the template *)

Lemma index_list_lookup {A} (l : list A) (i : nat) (x : A) :
  l !! i = Some x -> index_list l (Z.of_nat i) = Ok x.
Proof. apply index_list_nat. Qed.

Lemma command_cell_content_shape (doc text : json) :
  command_table_shape doc text -> command_cell_content doc = Ok text.
Proof.
  intros (body & blocks & tbl & t & rows & row & cells & c & cell_content
          & cell & p & elements & element & run & Hbody & Hcontent & Hblock
          & Ht & Hrows & Hrow & Hcells & Hc & Hcc & Hcell & Hp & Hel & Helem
          & Hrun & Htext).
  unfold command_cell_content.
  rewrite (getitem_has_key _ _ _ Hbody). simpl rbind.
  rewrite (getitem_has_key _ _ _ Hcontent). simpl rbind.
  rewrite (index_list_lookup _ 2 _ Hblock : index_list _ 2 = _). simpl rbind.
  rewrite (getitem_has_key _ _ _ Ht). simpl rbind.
  rewrite (getitem_has_key _ _ _ Hrows). simpl rbind.
  rewrite (index_list_lookup _ 1 _ Hrow : index_list _ 1 = _). simpl rbind.
  rewrite (getitem_has_key _ _ _ Hcells). simpl rbind.
  rewrite (index_list_lookup _ 0 _ Hc : index_list _ 0 = _). simpl rbind.
  rewrite (getitem_has_key _ _ _ Hcc). simpl rbind.
  rewrite (index_list_lookup _ 0 _ Hcell : index_list _ 0 = _). simpl rbind.
  rewrite (getitem_has_key _ _ _ Hp). simpl rbind.
  rewrite (getitem_has_key _ _ _ Hel). simpl rbind.
  rewrite (index_list_lookup _ 0 _ Helem : index_list _ 0 = _). simpl rbind.
  rewrite (getitem_has_key _ _ _ Hrun). simpl rbind.
  apply (getitem_has_key _ _ _ Htext).
Qed.

Lemma read_command_on_shape (fid text : pystr) (doc : json) (w : World) :
  w_docs w !! fid = Some doc ->
  command_table_shape doc (JStr text) ->
  _read_command fid w = (Ok (strip text), called (DocumentsGet fid) w).
Proof.
  intros Hdoc Hshape. unfold _read_command.
  unfold bind at 1. unfold documents_get. rewrite Hdoc.
  rewrite bind_lift, (command_cell_content_shape _ _ Hshape).
  rewrite bind_lift. reflexivity.
Qed.

(** X9: on a document whose command cell holds the string [text],
    [_read_command] returns [text] without the whitespace around it (the
    line feed that ends every cell included): what it returns neither
    starts nor ends with whitespace.  The one effect is the fetch of the
    document. *)
Theorem read_command_strips_cell (fid text : pystr) (doc : json) (w : World) :
  w_docs w !! fid = Some doc ->
  command_table_shape doc (JStr text) ->
  exists cmd,
    _read_command fid w = (Ok cmd, called (DocumentsGet fid) w)
    /\ cmd = strip text /\ lstrip cmd = cmd /\ rstrip cmd = cmd
    /\ (blank text = true -> cmd = []).
Proof.
  intros Hdoc Hshape. exists (strip text).
  split; [exact (read_command_on_shape _ _ _ _ Hdoc Hshape)|].
  split; [reflexivity|]. split; [apply strip_fixed|].
  split; [apply strip_fixed|apply strip_blank].
Qed.

(** X10: [_read_command] is read-only: whatever it returns or raises, the
    world afterwards differs from the one before by the recorded fetch
    alone. *)
Theorem read_command_read_only (fid : pystr) (w : World) :
  snd (_read_command fid w) = set_api (w_api w ++ [DocumentsGet fid]) w.
Proof.
  unfold _read_command. unfold bind at 1. unfold documents_get.
  destruct (w_docs w !! fid) as [doc|]; [|reflexivity].
  rewrite bind_lift. destruct (command_cell_content doc); [|reflexivity].
  rewrite bind_lift. destruct (strip_value j); reflexivity.
Qed.

(** X11: a document whose body holds fewer than three blocks makes
    [_read_command] raise [IndexError]. *)
Theorem read_command_short_document (fid : pystr) (doc body : json)
    (blocks : list json) (w : World) :
  w_docs w !! fid = Some doc ->
  has_key (py "body") body doc ->
  has_key (py "content") (JList blocks) body ->
  (length blocks < 3)%nat ->
  fst (_read_command fid w) = Raise IndexError.
Proof.
  intros Hdoc Hbody Hcontent Hlen. unfold _read_command.
  unfold bind at 1. unfold documents_get. rewrite Hdoc.
  rewrite bind_lift. unfold command_cell_content.
  rewrite (getitem_has_key _ _ _ Hbody). simpl rbind.
  rewrite (getitem_has_key _ _ _ Hcontent). simpl rbind.
  unfold index_list. change (2 <? 0)%Z with false. cbv iota.
  destruct (Z.ltb_spec 2 (Z.of_nat (length blocks))) as [Hlt|_]; [lia|].
  rewrite andb_false_r. reflexivity.
Qed.

Lemma header_cells_shape (table : json) (cells : list json) :
  first_row_cells table cells -> header_cells table = Ok (JList cells).
Proof.
  intros (t & rows & row & Ht & Hrows & Hrow & Hcells). unfold header_cells.
  rewrite (getitem_has_key _ _ _ Ht). simpl rbind.
  rewrite (getitem_has_key _ _ _ Hrows). simpl rbind.
  rewrite (index_list_lookup _ 0 _ Hrow : index_list _ 0 = _). simpl rbind.
  apply (getitem_has_key _ _ _ Hcells).
Qed.

Lemma cell_offset_shape (cells : list json) (col : nat) (start : Z) :
  cell_starts_at cells col start ->
  cell_offset (JList cells) (Z.of_nat col) = Ok (JInt (start + 1)).
Proof.
  intros (c & Hc & Hstart). unfold cell_offset. simpl getindex.
  rewrite (index_list_lookup _ _ _ Hc). simpl rbind.
  rewrite (getitem_has_key _ _ _ Hstart). reflexivity.
Qed.

Section Template.

Variable docs_engine : json -> list json -> option json.

(** X12: when the engine accepts the two table insertions and the
    document then has the template shape, [_add_tables] makes four calls in
    this order: the insertion of a one-column table, that of a three-column
    table, a fetch, and one batch writing the headers from right to left,
    [Datetime], [Output], [Command], then the placeholder of the command
    table. *)
Theorem add_tables_calls (fid : pystr) (w : World) (doc0 doc1 doc2 : json)
    (k o0 o1 o2 : Z) :
  w_docs w !! fid = Some doc0 ->
  docs_engine doc0 [append_table_request 2 1] = Some doc1 ->
  docs_engine doc1 [append_table_request 2 3] = Some doc2 ->
  template_shape doc2 k o0 o1 o2 ->
  w_api (snd (_add_tables docs_engine fid w))
  = w_api w
    ++ [DocumentsBatchUpdate fid [append_table_request 2 1];
        DocumentsBatchUpdate fid [append_table_request 2 3];
        DocumentsGet fid;
        DocumentsBatchUpdate fid
          [insert_text_request (JInt (o2 + 1)) (py "Datetime");
           insert_text_request (JInt (o1 + 1)) (py "Output");
           insert_text_request (JInt (o0 + 1)) (py "Command");
           insert_text_request (JInt (k + 1))
             (py "Insert command below")]].
Proof.
  intros Hdoc H1 H2 (body & blocks & ctable & otable & ccells & ocells
                     & Hbody & Hcontent & Hc & Ho & Hcc & Hoc & Hk & H0'
                     & H1' & H2').
  unfold _add_tables. unfold bind at 1. unfold for_each.
  change (insert_table_request 1) with (append_table_request 2 1).
  change (insert_table_request 3) with (append_table_request 2 3).
  unfold bind at 1. unfold _batch_update at 1. rewrite Hdoc, H1.
  unfold bind at 1. unfold _batch_update at 1. cbn [w_docs set_docs set_api].
  rewrite lookup_insert_eq, H2. unfold ret at 1.
  unfold bind at 1. unfold documents_get. cbn [w_docs set_docs set_api w_api].
  rewrite lookup_insert_eq.
  rewrite bind_lift, (getitem_has_key _ _ _ Hbody). simpl rbind.
  rewrite (getitem_has_key _ _ _ Hcontent).
  rewrite bind_lift. simpl getindex.
  rewrite (index_list_lookup _ 2 _ Hc : index_list _ 2 = _).
  rewrite bind_lift.
  rewrite (index_list_lookup _ 4 _ Ho : index_list _ 4 = _).
  rewrite bind_lift, (header_cells_shape _ _ Hoc).
  rewrite bind_lift, (header_cells_shape _ _ Hcc).
  rewrite bind_lift, (cell_offset_shape _ 2 _ H2' : cell_offset _ 2 = _).
  rewrite bind_lift, (cell_offset_shape _ 1 _ H1' : cell_offset _ 1 = _).
  rewrite bind_lift, (cell_offset_shape _ 0 _ H0' : cell_offset _ 0 = _).
  rewrite bind_lift, (cell_offset_shape _ 0 _ Hk : cell_offset _ 0 = _).
  rewrite batch_update_api. cbn [w_api set_api set_docs].
  rewrite <- !app_assoc. reflexivity.
Qed.

(** X13: when the engine rejects the first table insertion, [_add_tables]
    raises at once: the second table is not asked for, the document is not
    fetched and no header is written. *)
Theorem add_tables_stops_at_first_failure (fid : pystr) (w : World)
    (doc0 : json) :
  w_docs w !! fid = Some doc0 ->
  docs_engine doc0 [insert_table_request 1] = None ->
  _add_tables docs_engine fid w
  = (Raise HttpError,
     set_api (w_api w ++ [DocumentsBatchUpdate fid [insert_table_request 1]]) w).
Proof.
  intros Hdoc H1. unfold _add_tables. unfold bind at 1. unfold for_each.
  unfold bind at 1. unfold _batch_update at 1. rewrite Hdoc, H1. reflexivity.
Qed.

End Template.

(** ** The whitelist of the configuration *)

Lemma split_sep_not_nil (sep : N) (s : pystr) : split_sep sep s <> [].
Proof.
  destruct s as [|c s]; simpl; [discriminate|].
  destruct (c =? sep); [discriminate|].
  destruct (split_sep sep s); discriminate.
Qed.

Lemma split_sep_at_sep (sep : N) (s : pystr) :
  split_sep sep (sep :: s) = [] :: split_sep sep s.
Proof. simpl. rewrite N.eqb_refl. reflexivity. Qed.

(** Splitting undoes joining, when no field holds the separator. *)
Lemma split_sep_join (sep : N) (fields : list pystr) :
  fields <> [] -> Forall (fun f => free_of sep f = true) fields ->
  split_sep sep (join_sep sep fields) = fields.
Proof.
  induction fields as [|f rest IH]; [contradiction|].
  intros _ Hfree. inversion Hfree as [|? ? Hf Hrest]; subst.
  assert (Hone : forall tail,
             split_sep sep (f ++ tail)
             = match split_sep sep tail with
               | g :: gs => (f ++ g) :: gs
               | [] => [f]
               end).
  { clear IH Hfree Hrest. induction f as [|c f IHf]; intros tail; simpl.
    - destruct (split_sep sep tail) eqn:E; [|reflexivity].
      exfalso. exact (split_sep_not_nil _ _ E).
    - simpl in Hf. apply andb_prop in Hf as [Hc Hf].
      apply negb_true_iff in Hc. rewrite Hc, (IHf Hf).
      destruct (split_sep sep tail); reflexivity. }
  destruct rest as [|g rest].
  - simpl. rewrite <- (app_nil_r f) at 1. rewrite Hone. simpl.
    rewrite app_nil_r. reflexivity.
  - change (join_sep sep (f :: g :: rest))
      with (f ++ sep :: join_sep sep (g :: rest)).
    rewrite Hone, split_sep_at_sep.
    rewrite IH by (discriminate || exact Hrest).
    rewrite app_nil_r. reflexivity.
Qed.

(** What holds of every character other than the separator holds of every
    character of every field. *)
Lemma split_sep_fields (p : N -> bool) (sep : N) (s : pystr) :
  forallb (fun c => (c =? sep) || p c) s = true ->
  Forall (fun f => forallb p f = true) (split_sep sep s).
Proof.
  induction s as [|c s IH]; simpl.
  - intros _. constructor; [reflexivity|constructor].
  - intros H. apply andb_prop in H as [Hc Hs]. specialize (IH Hs).
    destruct (c =? sep); simpl in Hc.
    + constructor; [reflexivity|exact IH].
    + destruct (split_sep sep s) as [|f fs].
      * constructor; [simpl; rewrite Hc; reflexivity|constructor].
      * inversion IH; subst. constructor; [|assumption].
        simpl. rewrite Hc. assumption.
Qed.

Lemma split_sep_free (sep : N) (s : pystr) :
  Forall (fun f => free_of sep f = true) (split_sep sep s).
Proof.
  apply split_sep_fields. apply forallb_forall. intros c _.
  destruct (c =? sep); reflexivity.
Qed.

(** [strip] keeps what holds of every character. *)
Lemma strip_forallb (p : N -> bool) (s : pystr) :
  forallb p s = true -> forallb p (strip s) = true.
Proof.
  destruct (strip_spec s) as (l & r & Heq & _). intros H.
  rewrite Heq, !forallb_app in H.
  apply andb_prop in H as [_ H]. apply andb_prop in H as [H _]. exact H.
Qed.

Lemma elem_of_stripped_fields (n : pystr) (fields : list pystr) :
  n ∈ (list_to_set (map strip fields) : gset pystr) <->
  exists f, f ∈ fields /\ n = strip f.
Proof.
  rewrite elem_of_list_to_set, list_elem_of_In, in_map_iff.
  split; intros (f & H1 & H2).
  - exists f. rewrite list_elem_of_In. auto.
  - exists f. rewrite <- list_elem_of_In. auto.
Qed.

(** X14: a [valid_commands] option written as names separated by commas,
    with any whitespace around each name, gives the set of these names
    without that whitespace. *)
Theorem build_valid_commands_of_names (c : config) (names : list pystr) :
  names <> [] -> Forall (fun f => free_of comma f = true) names ->
  config_get c MAIN_SECTION COMMANDS = Ok (join_sep comma names) ->
  _build_valid_commands c = Ok (list_to_set (map strip names))
  /\ (forall n, n ∈ (list_to_set (map strip names) : gset pystr) <->
                exists f, f ∈ names /\ n = strip f).
Proof.
  intros Hne Hfree Hcfg. split; [|intros n; apply elem_of_stripped_fields].
  unfold _build_valid_commands. rewrite Hcfg. simpl rbind.
  rewrite split_sep_join by assumption. reflexivity.
Qed.

(** X15: every name of the whitelist built from a configuration is free
    of commas and of whitespace at both ends. *)
Theorem build_valid_commands_names_trimmed (c : config) (valid : gset pystr)
    (n : pystr) :
  _build_valid_commands c = Ok valid -> n ∈ valid ->
  free_of comma n = true /\ lstrip n = n /\ rstrip n = n.
Proof.
  unfold _build_valid_commands.
  destruct (config_get c MAIN_SECTION COMMANDS) as [v|e]; [|discriminate].
  simpl rbind. intros [= <-] Hin.
  apply elem_of_stripped_fields in Hin as (f & Hf & ->).
  split; [|apply strip_fixed].
  apply strip_forallb.
  pose proof (split_sep_free comma v) as Hall.
  rewrite Forall_forall in Hall. apply Hall, Hf.
Qed.

Section GateConfig.

Variable child : list pystr -> gmap pystr node -> child_outcome.

(** X16: a [valid_commands] option made of whitespace and commas only (an
    empty one included) authorizes nothing: with the whitelist built from
    it, no command spawns a process. *)
Theorem blank_whitelist_authorizes_nothing (c : config) (v : pystr)
    (valid : gset pystr) (cmd : pystr) (w : World) :
  config_get c MAIN_SECTION COMMANDS = Ok v ->
  forallb (fun ch => (ch =? comma) || isspace ch) v = true ->
  _build_valid_commands c = Ok valid ->
  spawned_by child cmd valid w = []
  /\ (fst (_execute_command child cmd valid w) = Ok None
      \/ fst (_execute_command child cmd valid w) = Ok (Some OUTPUT_INVALID_CMD)).
Proof.
  intros Hcfg Hblank. unfold _build_valid_commands. rewrite Hcfg.
  simpl rbind. intros [= <-].
  destruct (split cmd) as [|prog rest] eqn:Hsplit.
  - unfold spawned_by, _execute_command. rewrite Hsplit. simpl.
    rewrite drop_all. auto.
  - assert (Hnot : prog ∉ (list_to_set (map strip (split_sep comma v))
                            : gset pystr)).
    { intros Hin. apply elem_of_stripped_fields in Hin as (f & Hf & Heq).
      pose proof (split_sep_fields isspace comma v Hblank) as Hall.
      rewrite Forall_forall in Hall. specialize (Hall f Hf).
      rewrite (strip_blank f Hall) in Heq. subst prog.
      pose proof (split_tokens cmd) as Htok. rewrite Hsplit in Htok.
      inversion Htok as [|? ? [Hne _] _]. contradiction. }
    rewrite (spawned_by_spec _ _ _ _ _ _ Hsplit).
    rewrite bool_decide_eq_false_2 by exact Hnot.
    rewrite (execute_command_rejected _ _ _ _ _ _ Hsplit Hnot). auto.
Qed.

End GateConfig.

(** ** The storage directory *)

Lemma take_drop_to_slash (s : pystr) :
  take_to_slash s ++ drop_to_slash s = s.
Proof.
  induction s as [|c s IH]; simpl; [reflexivity|].
  destruct (c =? slash); simpl; [reflexivity|]. rewrite IH. reflexivity.
Qed.

Lemma length_drop_slashes (s : pystr) :
  (length (drop_slashes s) <= length s)%nat.
Proof.
  induction s as [|c s IH]; simpl; [lia|].
  destruct (c =? slash); simpl; lia.
Qed.

Lemma length_dirname (p : pystr) :
  (length (dirname p) + length (basename p) <= length p)%nat.
Proof.
  unfold dirname, basename.
  pose proof (take_drop_to_slash (rev p)) as Hsplit.
  apply (f_equal (@length N)) in Hsplit.
  rewrite length_app, length_rev in Hsplit.
  pose proof (length_drop_slashes (drop_to_slash (rev p))) as Hle.
  rewrite length_rev.
  destruct (drop_slashes (drop_to_slash (rev p))) eqn:E;
    rewrite length_rev; simpl in *; lia.
Qed.

Lemma basename_nonempty_length (p : pystr) :
  basename p <> [] -> (length (dirname p) < length p)%nat.
Proof.
  intros H. pose proof (length_dirname p).
  destruct (basename p); [contradiction|]. simpl in *. lia.
Qed.

(** The parent [os.makedirs] recurses on is shorter than the path. *)
Lemma makedirs_head_shorter (name : pystr) :
  let head0 := dirname name in
  let tail0 := basename name in
  let head := match tail0 with [] => dirname head0 | _ => head0 end in
  let tail := match tail0 with [] => basename head0 | _ => tail0 end in
  tail <> [] -> (length head < length name)%nat.
Proof.
  cbv zeta. destruct (basename name) eqn:E.
  - intros H. apply basename_nonempty_length in H.
    pose proof (length_dirname name). lia.
  - intros _. apply basename_nonempty_length. rewrite E. discriminate.
Qed.

(** The fuel [os_makedirs] starts with is never used up: any larger amount
    gives the same run. *)
Lemma makedirs_fuel_enough (n m : nat) (name : pystr) :
  (length name < n)%nat -> (length name < m)%nat ->
  makedirs_fuel n name = makedirs_fuel m name.
Proof.
  revert m name. induction n as [|n IH]; intros m name Hn Hm; [lia|].
  destruct m as [|m]; [lia|].
  pose proof (makedirs_head_shorter name) as Hshort. cbv zeta in Hshort.
  cbn [makedirs_fuel].
  destruct (match basename name with
            | [] => dirname (dirname name)
            | _ :: _ => dirname name
            end) as [|h head]; [reflexivity|].
  destruct (match basename name with
            | [] => basename (dirname name)
            | _ :: _ => basename name
            end) as [|t tail]; [reflexivity|].
  assert (Hlt : (length (h :: head) < length name)%nat)
    by (apply Hshort; discriminate).
  rewrite (IH m (h :: head)) by lia. reflexivity.
Qed.

Lemma adds_directories_refl (w : World) : adds_directories w w.
Proof. repeat split; auto. destruct w; reflexivity. Qed.

Lemma adds_directories_trans (w1 w2 w3 : World) :
  adds_directories w1 w2 -> adds_directories w2 w3 -> adds_directories w1 w3.
Proof.
  intros (Hk1 & Hn1 & He1) (Hk2 & Hn2 & He2). repeat split.
  - auto.
  - intros p n H. destruct (Hn2 p n H) as [H'|]; auto.
  - rewrite He2, He1. destruct w1; reflexivity.
Qed.

(** A path that ends with a name has no slash to leave out. *)
Lemma without_trailing_slashes_name (path : pystr) :
  basename path <> [] -> without_trailing_slashes path = path.
Proof.
  unfold basename, without_trailing_slashes. intros H.
  destruct (rev path) as [|c r] eqn:E; [contradiction H; reflexivity|].
  simpl in H |- *. destruct (c =? slash); [contradiction H; reflexivity|].
  rewrite <- (rev_involutive path), E. reflexivity.
Qed.

Lemma os_mkdir_cases (name : pystr) (w : World) :
  (exists e, os_mkdir name w = (Raise e, w))
  \/ (w_fs w !! without_trailing_slashes name = None
      /\ os_mkdir name w
         = (Ok tt,
            set_fs (<[without_trailing_slashes name := Dir]> (w_fs w)) w)).
Proof.
  unfold os_mkdir. cbv zeta.
  repeat match goal with
         | |- context [match ?x with _ => _ end] => destruct x eqn:?
         end;
    try (left; eexists; reflexivity); right; split; auto.
Qed.

Lemma os_mkdir_adds (name : pystr) (w : World) :
  adds_directories w (snd (os_mkdir name w)).
Proof.
  destruct (os_mkdir_cases name w) as [[e ->]|[Hfree ->]];
    [apply adds_directories_refl|].
  cbn [snd]. repeat split; cbn [w_fs set_fs].
  - intros p n H. rewrite lookup_insert_ne; [exact H|]. intros <-. congruence.
  - intros p n H.
    destruct (decide (without_trailing_slashes name = p)) as [<-|Hne].
    + rewrite lookup_insert_eq in H. right. congruence.
    + rewrite lookup_insert_ne in H by exact Hne. auto.
Qed.

Lemma makedirs_fuel_adds (fuel : nat) (name : pystr) (w : World) :
  adds_directories w (snd (makedirs_fuel fuel name w)).
Proof.
  revert name w. induction fuel as [|fuel IH]; intros name w;
    [apply adds_directories_refl|].
  cbn [makedirs_fuel].
  destruct (match basename name with
            | [] => dirname (dirname name)
            | _ :: _ => dirname name
            end) as [|h head]; [apply os_mkdir_adds|].
  destruct (match basename name with
            | [] => basename (dirname name)
            | _ :: _ => basename name
            end) as [|t tail]; [apply os_mkdir_adds|].
  unfold bind at 1, os_path_exists, gets.
  match goal with
  | |- context [match ?x with Some _ => true | None => false end] =>
      destruct x
  end; cbn [negb]; [apply os_mkdir_adds|].
  unfold bind at 1. specialize (IH (h :: head) w).
  destruct (makedirs_fuel fuel (h :: head) w) as [[[]|e] w1]; cbn [snd] in IH.
  - case_decide; [exact IH|].
    eapply adds_directories_trans; [exact IH|apply os_mkdir_adds].
  - destruct (is_FileExistsError e); [|exact IH].
    case_decide; [exact IH|].
    eapply adds_directories_trans; [exact IH|apply os_mkdir_adds].
Qed.

(** X17: [create_lib_dir] only adds directories: whether it returns or
    raises, every file and directory that was there is still there
    unchanged, every new entry is a directory, and nothing else in the
    world moves. *)
Theorem create_lib_dir_only_adds_directories (path : pystr) (w : World) :
  adds_directories w (snd (create_lib_dir path w)).
Proof.
  unfold create_lib_dir, bind, os_path_exists, gets.
  destruct (w_fs w !! path); cbn [negb]; [apply adds_directories_refl|].
  apply makedirs_fuel_adds.
Qed.

Lemma create_lib_dir_absent_then_directory (path : pystr) (w w' : World) :
  plain_name path -> w_fs w !! path = None ->
  create_lib_dir path w = (Ok tt, w') -> w_fs w' !! path = Some Dir.
Proof.
  intros [Hne Hdot] Hpath. unfold create_lib_dir, bind, os_path_exists, gets.
  rewrite Hpath. cbn [negb]. intros Hmk.
  unfold os_makedirs in Hmk. cbn [makedirs_fuel] in Hmk.
  destruct (basename path) as [|b bs] eqn:Hb; [contradiction|].
  assert (Hlast : forall w0 w1, os_mkdir path w0 = (Ok tt, w1) ->
                                w_fs w1 !! path = Some Dir).
  { intros w0 w1 H. destruct (os_mkdir_cases path w0) as [[e He]|[_ He]];
      rewrite He in H; [discriminate|].
    injection H as <-. cbn [w_fs set_fs].
    rewrite without_trailing_slashes_name by (rewrite Hb; discriminate).
    apply lookup_insert_eq. }
  destruct (dirname path) as [|h head]; [exact (Hlast _ _ Hmk)|].
  unfold bind at 1, os_path_exists, gets in Hmk.
  match type of Hmk with
  | context [match ?x with Some _ => true | None => false end] =>
      destruct x
  end; cbn [negb] in Hmk; [exact (Hlast _ _ Hmk)|].
  unfold bind at 1 in Hmk.
  destruct (makedirs_fuel (length path) (h :: head) w) as [[[]|e] w1];
    [|destruct (is_FileExistsError e); [|discriminate]];
    (case_decide; [contradiction|]);
    exact (Hlast _ _ Hmk).
Qed.

(** ** The files of the first run *)

Lemma drop_to_slash_free (name rest : pystr) :
  free_of slash name = true ->
  drop_to_slash (name ++ slash :: rest) = slash :: rest.
Proof.
  induction name as [|c name IH]; simpl; [reflexivity|].
  intros H. apply andb_prop in H as [Hc Hn]. apply negb_true_iff in Hc.
  rewrite Hc. exact (IH Hn).
Qed.

Lemma take_to_slash_free (name rest : pystr) :
  free_of slash name = true ->
  take_to_slash (name ++ slash :: rest) = name.
Proof.
  induction name as [|c name IH]; simpl; [reflexivity|].
  intros H. apply andb_prop in H as [Hc Hn]. apply negb_true_iff in Hc.
  rewrite Hc, (IH Hn). reflexivity.
Qed.

Lemma free_of_rev (sep : N) (s : pystr) :
  free_of sep s = true -> free_of sep (rev s) = true.
Proof.
  unfold free_of. rewrite !forallb_forall. intros H x Hx.
  apply H. apply in_rev. exact Hx.
Qed.

Lemma rev_child (d name : pystr) :
  rev (d ++ slash :: name) = rev name ++ slash :: rev d.
Proof. rewrite rev_app_distr. simpl. rewrite <- app_assoc. reflexivity. Qed.

(** The directory of a name placed under a directory that does not end
    with a slash is that directory, and its base name is the name. *)
Lemma dirname_child (d name : pystr) (c : N) :
  last d = Some c -> c <> slash -> free_of slash name = true ->
  dirname (d ++ slash :: name) = d.
Proof.
  intros Hlast Hc Hname. unfold dirname.
  rewrite rev_child, (drop_to_slash_free _ _ (free_of_rev _ _ Hname)).
  apply last_Some in Hlast as [d' ->].
  rewrite rev_app_distr. simpl.
  apply N.eqb_neq in Hc. rewrite Hc. rewrite rev_involutive. reflexivity.
Qed.

Lemma basename_child (d name : pystr) :
  free_of slash name = true -> basename (d ++ slash :: name) = name.
Proof.
  intros Hname. unfold basename.
  rewrite rev_child, (take_to_slash_free _ _ (free_of_rev _ _ Hname)).
  apply rev_involutive.
Qed.

Lemma path_join_name (a name : pystr) (c : N) :
  last a = Some c -> c <> slash ->
  match name with [] => False | x :: _ => x <> slash end ->
  path_join a name = a ++ slash :: name.
Proof.
  intros Hlast Hc Hname. unfold path_join.
  destruct name as [|x name]; [contradiction|].
  apply N.eqb_neq in Hname, Hc. rewrite Hname, Hlast, Hc. reflexivity.
Qed.

Lemma path_join_suffix (a name : pystr) :
  match name with [] => False | x :: _ => x <> slash end ->
  exists P, path_join a name = P ++ name.
Proof.
  intros Hname. unfold path_join. destruct name as [|x name]; [contradiction|].
  apply N.eqb_neq in Hname. rewrite Hname.
  destruct (last a) as [d|]; [destruct (d =? slash)|].
  - exists a. reflexivity.
  - exists (a ++ [slash]). rewrite <- app_assoc. reflexivity.
  - exists []. reflexivity.
Qed.

Lemma os_mkdir_fresh (path : pystr) (w : World) :
  basename path <> [] -> w_fs w !! path = None ->
  dirname path = [] \/ w_fs w !! dirname path = Some Dir ->
  os_mkdir path w = (Ok tt, set_fs (<[path := Dir]> (w_fs w)) w).
Proof.
  intros Hne Hfree Hparent. unfold os_mkdir. cbv zeta.
  rewrite (without_trailing_slashes_name _ Hne).
  destruct path as [|c path]; [contradiction Hne; reflexivity|].
  rewrite Hfree.
  destruct (dirname (c :: path)) as [|h d]; [reflexivity|].
  destruct Hparent as [Hd|Hd]; [discriminate|].
  match goal with
  | |- context [match ?x with Some _ => _ | None => _ end] =>
      replace x with (Some Dir) by (symmetry; exact Hd)
  end. reflexivity.
Qed.

(** When the parent is there, [create_lib_dir] on a free path makes this
    one directory. *)
Lemma create_lib_dir_fresh (path : pystr) (w : World) :
  plain_name path -> w_fs w !! path = None ->
  dirname path = [] \/ w_fs w !! dirname path = Some Dir ->
  create_lib_dir path w = (Ok tt, set_fs (<[path := Dir]> (w_fs w)) w).
Proof.
  intros [Hb Hdot] Hfree Hparent.
  assert (Hne : path <> []) by (intros ->; apply Hb; reflexivity).
  unfold create_lib_dir, bind, os_path_exists, gets. rewrite Hfree.
  cbn [negb]. unfold os_makedirs. cbn [makedirs_fuel].
  pose proof (os_mkdir_fresh path w Hb Hfree Hparent) as Hmk.
  destruct (basename path) as [|b bs]; [contradiction|].
  destruct (dirname path) as [|h d] eqn:Hd; [exact Hmk|].
  destruct Hparent as [Hp|Hp]; [discriminate|].
  unfold bind, os_path_exists, gets.
  match goal with
  | |- context [match ?x with Some _ => true | None => false end] =>
      replace x with (Some Dir) by (symmetry; exact Hp)
  end. cbn [negb]. exact Hmk.
Qed.

(** X18: on a path that is there already, a regular file included,
    [create_lib_dir] returns without an error and changes nothing; on an
    absent path ending with a name whose parent is there, it returns having
    made this one directory; and whenever it returns on an absent path
    ending with a name, the path is a directory afterwards. *)
Theorem create_lib_dir_makes_path (path : pystr) (w : World) :
  (forall n, w_fs w !! path = Some n -> create_lib_dir path w = (Ok tt, w))
  /\ (plain_name path -> w_fs w !! path = None ->
      dirname path = [] \/ w_fs w !! dirname path = Some Dir ->
      create_lib_dir path w = (Ok tt, set_fs (<[path := Dir]> (w_fs w)) w))
  /\ (plain_name path -> w_fs w !! path = None ->
      forall w', create_lib_dir path w = (Ok tt, w') ->
                 w_fs w' !! path = Some Dir).
Proof.
  split; [|split].
  - intros n Hn. unfold create_lib_dir, bind, os_path_exists, gets.
    rewrite Hn. reflexivity.
  - apply create_lib_dir_fresh.
  - intros Hplain Hnone w'.
    apply create_lib_dir_absent_then_directory; assumption.
Qed.

Lemma open_w_fresh (path : pystr) (w : World) (c : N) :
  last path = Some c -> c <> slash ->
  w_fs w !! path = None ->
  w_fs w !! dirname path = Some Dir ->
  open_w path w = (Ok tt, set_fs (<[path := File []]> (w_fs w)) w).
Proof.
  intros Hlast Hc Hfree Hparent. unfold open_w.
  apply N.eqb_neq in Hc. rewrite Hlast, Hc, Hfree.
  destruct (dirname path) as [|h d]; [reflexivity|].
  match goal with
  | |- context [match ?x with Some _ => _ | None => _ end] =>
      replace x with (Some Dir) by (symmetry; exact Hparent)
  end. reflexivity.
Qed.

Section FirstRun.

Variable drive_create : json -> result json.
Variable home : pystr.

Lemma STORAGE_PATH_suffix : exists P, STORAGE_PATH home = P ++ py ".gdoc_shell".
Proof.
  unfold STORAGE_PATH.
  destruct (path_join_suffix home (py ".gdoc_shell")) as [P HP];
    [vm_compute; discriminate|]. eauto.
Qed.

Lemma last_STORAGE_PATH : last (STORAGE_PATH home) = Some 0x6C.
Proof.
  destruct STORAGE_PATH_suffix as [P ->]. rewrite last_app. reflexivity.
Qed.

Lemma FILE_ID_PATH_eq :
  FILE_ID_PATH home = STORAGE_PATH home ++ slash :: py "fid".
Proof.
  unfold FILE_ID_PATH.
  apply (path_join_name _ _ _ last_STORAGE_PATH); vm_compute; discriminate.
Qed.

Lemma TOKEN_PATH_eq :
  TOKEN_PATH home = STORAGE_PATH home ++ slash :: py "token".
Proof.
  unfold TOKEN_PATH.
  apply (path_join_name _ _ _ last_STORAGE_PATH); vm_compute; discriminate.
Qed.

(** The file-id file lies directly in the storage directory. *)
Lemma dirname_FILE_ID_PATH : dirname (FILE_ID_PATH home) = STORAGE_PATH home.
Proof.
  rewrite FILE_ID_PATH_eq.
  apply (dirname_child _ _ _ last_STORAGE_PATH); [vm_compute; discriminate|].
  reflexivity.
Qed.

Lemma basename_STORAGE_PATH : basename (STORAGE_PATH home) = py ".gdoc_shell".
Proof.
  unfold STORAGE_PATH, path_join.
  change (py ".gdoc_shell") with (0x2E :: py "gdoc_shell").
  cbv iota. change (0x2E =? slash) with false. cbv iota.
  destruct (last home) as [d|] eqn:Hlast.
  - destruct (d =? slash) eqn:Hd.
    + apply N.eqb_eq in Hd. subst d. apply last_Some in Hlast as [h ->].
      rewrite <- app_assoc. apply basename_child. reflexivity.
    + apply basename_child. reflexivity.
  - reflexivity.
Qed.

Lemma paths_distinct :
  FILE_ID_PATH home <> STORAGE_PATH home
  /\ TOKEN_PATH home <> STORAGE_PATH home
  /\ TOKEN_PATH home <> FILE_ID_PATH home.
Proof.
  rewrite FILE_ID_PATH_eq, TOKEN_PATH_eq. repeat split; intros H.
  - apply (f_equal (@length N)) in H. rewrite length_app in H.
    simpl in H. lia.
  - apply (f_equal (@length N)) in H. rewrite length_app in H.
    simpl in H. lia.
  - apply app_inv_head in H. discriminate H.
Qed.

(** X19: on a first run, with no storage directory yet but its parent in
    place, making the directory and then creating the file succeeds when
    Drive answers with a string id that can be encoded: the storage
    directory exists, the
    file-id file holds the id with nothing added, [read_id] gives its first
    line, and whether setup is still needed depends on the token file
    alone. *)
Theorem first_run_files (filename id : pystr) (items : list (pystr * json))
    (w : World) :
  w_fs w !! STORAGE_PATH home = None ->
  w_fs w !! FILE_ID_PATH home = None ->
  dirname (STORAGE_PATH home) = []
  \/ w_fs w !! dirname (STORAGE_PATH home) = Some Dir ->
  drive_create (JDict [(py "name", JStr filename);
                       (py "mimeType", JStr DOC_MIMETYPE)])
  = Ok (JDict items) ->
  assoc (py "id") items = Some (JStr id) ->
  forallb encodable id = true ->
  exists w',
    (create_lib_dir (STORAGE_PATH home) ;;
     _create_file drive_create home filename) w = (Ok (JStr id), w')
    /\ w_fs w' !! STORAGE_PATH home = Some Dir
    /\ w_fs w' !! FILE_ID_PATH home = Some (File id)
    /\ read_id (FILE_ID_PATH home) w' = (Ok (readline id), w')
    /\ exists b : bool,
         needs_setup (STORAGE_PATH home) (FILE_ID_PATH home)
           (TOKEN_PATH home) w' = (Ok b, w')
         /\ (b = true <-> w_fs w !! TOKEN_PATH home = None).
Proof.
  intros Hsp Hfid Hparent Hdrive Hid Henc.
  destruct paths_distinct as (Hfs & Hts & Htf).
  assert (Hplain : plain_name (STORAGE_PATH home)).
  { unfold plain_name. rewrite basename_STORAGE_PATH.
    split; vm_compute; discriminate. }
  set (w1 := set_fs (<[STORAGE_PATH home := Dir]> (w_fs w)) w).
  set (w2 := set_fs (<[FILE_ID_PATH home := File []]> (w_fs w1)) w1).
  set (w3 := set_fs (<[FILE_ID_PATH home := File ([] ++ id)]> (w_fs w2)) w2).
  assert (Hopen : open_w (FILE_ID_PATH home) w1 = (Ok tt, w2)).
  { apply (open_w_fresh _ _ 0x64).
    - rewrite FILE_ID_PATH_eq, last_app. reflexivity.
    - vm_compute. discriminate.
    - unfold w1. cbn [w_fs set_fs].
      rewrite lookup_insert_ne by (intros E; apply Hfs; symmetry; exact E).
      exact Hfid.
    - rewrite dirname_FILE_ID_PATH. unfold w1. cbn [w_fs set_fs].
      apply lookup_insert_eq. }
  assert (Hwrite : write_text (FILE_ID_PATH home) (JStr id) w1 = (Ok tt, w3)).
  { unfold write_text, bind. rewrite Hopen. unfold file_write. rewrite Henc.
    unfold w2 at 1. cbn [w_fs set_fs]. rewrite lookup_insert_eq.
    reflexivity. }
  exists w3. split; [|split; [|split; [|split]]].
  - unfold bind at 1.
    rewrite (create_lib_dir_fresh _ _ Hplain Hsp Hparent). fold w1.
    unfold _create_file. unfold bind at 1, lift at 1. rewrite Hdrive.
    unfold bind at 1, ret at 1. rewrite Hid.
    change (default JNone (Some (JStr id))) with (JStr id).
    unfold bind at 1. rewrite Hwrite. reflexivity.
  - unfold w3, w2, w1. cbn [w_fs set_fs].
    rewrite !lookup_insert_ne by exact Hfs. apply lookup_insert_eq.
  - unfold w3. cbn [w_fs set_fs]. apply lookup_insert_eq.
  - exact (write_text_read_id _ _ _ _ Hwrite).
  - exists (match w_fs w !! TOKEN_PATH home with Some _ => false | None => true end).
    split.
    + unfold needs_setup, bind, os_path_exists, gets.
      unfold w3 at 1, w2 at 1, w1 at 1. cbn [w_fs set_fs].
      rewrite !(lookup_insert_ne _ (FILE_ID_PATH home) (STORAGE_PATH home))
        by exact Hfs.
      rewrite lookup_insert_eq. cbn [negb].
      unfold w3 at 1. cbn [w_fs set_fs]. rewrite lookup_insert_eq. cbn [negb].
      unfold w3 at 1, w2 at 1, w1 at 1. cbn [w_fs set_fs].
      rewrite !(lookup_insert_ne _ (FILE_ID_PATH home) (TOKEN_PATH home))
        by (intros E; apply Htf; symmetry; exact E).
      rewrite (lookup_insert_ne _ (STORAGE_PATH home) (TOKEN_PATH home))
        by (intros E; apply Hts; symmetry; exact E).
      destruct (w_fs w !! TOKEN_PATH home); reflexivity.
    + destruct (w_fs w !! TOKEN_PATH home); split; congruence.
Qed.

(** X20: when the answer of Drive holds no [id], [_create_file] raises
    [TypeError] with the file-id file already created or emptied: the file
    is left in place with nothing in it. *)
Theorem create_file_without_id (filename : pystr) (items : list (pystr * json))
    (w w1 : World) :
  drive_create (JDict [(py "name", JStr filename);
                       (py "mimeType", JStr DOC_MIMETYPE)])
  = Ok (JDict items) ->
  assoc (py "id") items = None ->
  open_w (FILE_ID_PATH home) w = (Ok tt, w1) ->
  _create_file drive_create home filename w = (Raise TypeError, w1)
  /\ w_fs w1 !! FILE_ID_PATH home = Some (File [])
  /\ read_id (FILE_ID_PATH home) w1 = (Ok [], w1).
Proof.
  intros Hdrive Hid Hopen.
  pose proof (open_w_ok _ _ _ Hopen) as ->.
  assert (Hfile : w_fs (set_fs (<[FILE_ID_PATH home := File []]> (w_fs w)) w)
                  !! FILE_ID_PATH home = Some (File []))
    by (cbn [w_fs set_fs]; apply lookup_insert_eq).
  split; [|split; [exact Hfile|]].
  - unfold _create_file. unfold bind at 1, lift at 1. rewrite Hdrive.
    unfold bind at 1, ret at 1. rewrite Hid.
    change (default JNone None) with JNone.
    unfold bind at 1, write_text, bind. rewrite Hopen. reflexivity.
  - unfold read_id, bind, open_r. rewrite Hfile. reflexivity.
Qed.

End FirstRun.

(** ** The dispatch of the modes *)

Section CommandLineMore.

Variable parse_args : ArgumentParser -> list pystr -> parse_outcome.
Variable start_daemon_process : M unit.
Variable stop : M unit.

(** X21: in mode [restart] the daemon is started only after [stop] has
    returned: when [stop] raises, for want of a lock file say, the
    exception ends the program and [start_daemon_process] does not run. *)
Theorem main_restart (w : World) namespace :
  parse_args the_parser (tail (w_argv w)) = Parsed namespace ->
  attr (py "mode") namespace = Some (py "restart") ->
  main parse_args start_daemon_process stop w
  = match stop w with
    | (Ok _, w1) => start_daemon_process w1
    | (Raise e, w1) => (Raise e, w1)
    end.
Proof.
  intros Hparse Hattr. rewrite (main_dispatch _ _ _ _ _ _ Hparse Hattr).
  repeat case_decide;
    try (exfalso;
         match goal with
         | H : py _ = py _ |- _ => vm_compute in H; discriminate H
         | H : py _ <> py _ |- _ => apply H; reflexivity
         end).
  unfold bind. destruct (stop w) as [[[]|e] w1]; reflexivity.
Qed.

End CommandLineMore.

(** ** One poll cycle *)

Lemma bind_ok {A B} (m : M A) (k : A -> M B) (w w' : World) (a : A) :
  m w = (Ok a, w') -> bind m k w = k a w'.
Proof. intros H. unfold bind. rewrite H. reflexivity. Qed.

Lemma bind_raise {A B} (m : M A) (k : A -> M B) (w w' : World) (e : exn) :
  m w = (Raise e, w') -> bind m k w = (Raise e, w').
Proof. intros H. unfold bind. rewrite H. reflexivity. Qed.

Lemma bind_logger_info {B} fmt args (k : unit -> M B) (w : World) :
  bind (logger_info fmt args) k w = k tt (logged (mkLog INFO fmt args) w).
Proof. reflexivity. Qed.

Lemma read_id_file (path text : pystr) (w : World) :
  w_fs w !! path = Some (File text) -> read_id path w = (Ok (readline text), w).
Proof. intros H. unfold read_id, bind, open_r. rewrite H. reflexivity. Qed.


Section Poll.

Variable child : list pystr -> gmap pystr node -> child_outcome.
Variable docs_engine : json -> list json -> option json.
Variable home : pystr.
Variable read_config : M config.
Variable connect : pystr -> M unit.

(** The cycle up to the gate, when the configuration is read, the file-id
    file is there, the service is reached without further effect and the
    document has a command cell. *)
Lemma run_reaches_gate (w : World) (c : config) (t cred text : pystr)
    (doc : json) (valid : gset pystr) :
  read_config w = (Ok c, w) ->
  w_fs w !! FILE_ID_PATH home = Some (File t) ->
  config_get c MAIN_SECTION CREDENTIALS = Ok cred ->
  connect cred (logged (mkLog INFO (py "File id found %s") [readline t]) w)
  = (Ok tt, logged (mkLog INFO (py "File id found %s") [readline t]) w) ->
  w_docs w !! readline t = Some doc ->
  command_table_shape doc (JStr text) ->
  _build_valid_commands c = Ok valid ->
  _run child docs_engine home read_config connect w
  = (output <- _execute_command child (strip text) valid ;;
     _write_output docs_engine (strip text) output (readline t) ;;
     logger_info (py "Output updated to file") [])
      (logged (mkLog INFO (py "Command to execute: %s") [strip text])
         (called (DocumentsGet (readline t))
            (logged (mkLog INFO (py "File id found %s") [readline t]) w))).
Proof.
  intros Hcfg Hfile Hcred Hconn Hdoc Hshape Hvalid. unfold _run.
  rewrite (bind_ok _ _ _ _ _ Hcfg).
  rewrite (bind_ok _ _ _ _ _ (read_id_file _ _ _ Hfile)).
  rewrite bind_logger_info, bind_lift, Hcred.
  rewrite (bind_ok _ _ _ _ _ Hconn).
  rewrite (bind_ok _ _ _ _ _
             (read_command_on_shape (readline t) text doc
                (logged (mkLog INFO (py "File id found %s") [readline t]) w)
                Hdoc Hshape)).
  rewrite bind_logger_info, bind_lift, Hvalid. reflexivity.
Qed.

(** X23: a cycle that finds the command cell empty, or holding whitespace
    only, ends well having done nothing but fetch the document once and
    log three lines: no process is spawned, no batch is submitted, and no
    document or file changes. *)
Theorem run_idle_cycle (w : World) (c : config) (t cred text : pystr)
    (doc : json) (valid : gset pystr) :
  read_config w = (Ok c, w) ->
  w_fs w !! FILE_ID_PATH home = Some (File t) ->
  config_get c MAIN_SECTION CREDENTIALS = Ok cred ->
  connect cred (logged (mkLog INFO (py "File id found %s") [readline t]) w)
  = (Ok tt, logged (mkLog INFO (py "File id found %s") [readline t]) w) ->
  w_docs w !! readline t = Some doc ->
  command_table_shape doc (JStr text) ->
  _build_valid_commands c = Ok valid ->
  blank text = true ->
  _run child docs_engine home read_config connect w
  = (Ok tt,
     logged (mkLog INFO (py "Output updated to file") [])
       (logged (mkLog INFO (py "Command to execute: %s") [[]])
          (called (DocumentsGet (readline t))
             (logged (mkLog INFO (py "File id found %s") [readline t]) w)))).
Proof.
  intros Hcfg Hfile Hcred Hconn Hdoc Hshape Hvalid Hblank.
  rewrite (run_reaches_gate _ _ _ _ _ _ _ Hcfg Hfile Hcred Hconn Hdoc Hshape
             Hvalid).
  rewrite (strip_blank _ Hblank). reflexivity.
Qed.


(** X25: a cycle that finds a whitelisted command whose process completes
    with a standard output decoding to [s] spawns that one process and
    writes the result back: after the two fetches, one batch whose output
    column holds [strip s], or [OUTPUT_NO_OUTPUT] when that is empty. *)
Theorem run_executed_cycle (w : World) (c : config) (t cred text s : pystr)
    (doc : json) (valid : gset pystr) (prog : pystr) (rest : list pystr)
    (cp : CompletedProcess) (fs' : gmap pystr node)
    (ts : json) (rows_before : list json) (c0 c1 c2 : Z) :
  read_config w = (Ok c, w) ->
  w_fs w !! FILE_ID_PATH home = Some (File t) ->
  config_get c MAIN_SECTION CREDENTIALS = Ok cred ->
  connect cred (logged (mkLog INFO (py "File id found %s") [readline t]) w)
  = (Ok tt, logged (mkLog INFO (py "File id found %s") [readline t]) w) ->
  w_docs w !! readline t = Some doc ->
  command_table_shape doc (JStr text) ->
  _build_valid_commands c = Ok valid ->
  split (strip text) = prog :: rest -> prog ∈ valid ->
  child (prog :: rest) (w_fs w) = ChildExited cp fs' ->
  utf8_decode (stdout cp) = Some s ->
  output_table_shape doc ts rows_before c0 c1 c2 ->
  let w' := snd (_run child docs_engine home read_config connect w) in
  w_spawned w' = w_spawned w ++ [prog :: rest]
  /\ w_fs w' = fs'
  /\ w_api w'
     = w_api w
       ++ [DocumentsGet (readline t); DocumentsGet (readline t);
           DocumentsBatchUpdate (readline t)
             [insert_text_request (JInt (c2 + 1))
                (strftime_DATETIME_FORMAT (w_now w));
              insert_text_request (JInt (c1 + 1))
                (match strip s with
                       | [] => OUTPUT_NO_OUTPUT
                       | _ => strip s
                       end);
              insert_text_request (JInt (c0 + 1)) (strip text);
              insert_row_below ts (Z.of_nat (length rows_before))]].
Proof.
  intros Hcfg Hfile Hcred Hconn Hdoc Hshape Hvalid Hsplit Hin Hchild Hdec
         Hout.
  cbv zeta.
  remember (_run child docs_engine home read_config connect w) as r eqn:Hr.
  rewrite (run_reaches_gate _ _ _ _ _ _ _ Hcfg Hfile Hcred Hconn Hdoc Hshape
             Hvalid) in Hr.
  unfold bind at 1 in Hr.
  rewrite (execute_command_allowed child _ valid _ _ _ Hsplit Hin) in Hr.
  cbn [w_fs set_log set_api logged called] in Hr. rewrite Hchild, Hdec in Hr.
  unfold bind at 1 in Hr.
  match type of Hr with
  | context [_write_output _ _ (Some ?out) _ ?wx] =>
      rewrite (write_output_some docs_engine (strip text) out
                 (readline t) wx doc ts rows_before c0 c1 c2 Hdoc Hout) in Hr
  end.
  unfold _batch_update in Hr.
  cbn [w_docs w_api w_now w_spawned w_fs set_api set_log set_fs set_spawned
       logged called] in Hr.
  rewrite Hdoc in Hr.
  destruct (docs_engine doc _); subst r; cbv beta iota;
    unfold logger_info, modify;
    cbn [snd w_spawned w_fs w_api set_api set_log set_docs set_fs set_spawned];
    rewrite <- !app_assoc; repeat split.
Qed.

End Poll.

(** ** The further properties at the sample inputs *)

Lemma spawned_arguments_are_tokens_witness :
  [py "echo"; py "Testing"] = split (py "echo Testing")
  /\ (exists prog rest,
        [py "echo"; py "Testing"] = prog :: rest /\ prog ∈ sample_valid)
  /\ Forall (fun t => t <> [] /\ forallb (fun c => negb (isspace c)) t = true)
            [py "echo"; py "Testing"].
Proof.
  apply (spawned_arguments_are_tokens sample_child (py "echo Testing")
           sample_valid empty_world).
  vm_compute. apply list_elem_of_here.
Defined.

Lemma execute_command_ignores_exit_status_witness :
  fst (_execute_command sample_child (py "echo Testing") sample_valid
         empty_world)
  = fst (_execute_command sample_child_failing (py "echo Testing")
           sample_valid empty_world).
Proof.
  apply (execute_command_ignores_exit_status sample_child sample_child_failing
           (py "echo Testing") sample_valid empty_world
           (mkCompleted 0 (py "Testing" ++ [LF]) [])
           (mkCompleted 1 (py "Testing" ++ [LF]) (py "failed")) ∅ ∅);
    reflexivity.
Defined.

Lemma execute_command_result_trimmed_witness :
  py "Testing" <> [] /\ lstrip (py "Testing") = py "Testing"
  /\ rstrip (py "Testing") = py "Testing".
Proof.
  apply (execute_command_result_trimmed sample_child (py "echo Testing")
           sample_valid empty_world (py "Testing")).
  vm_compute. reflexivity.
Defined.

Lemma execute_command_undecodable_witness :
  _execute_command sample_child_binary (py "more blob") sample_valid
    empty_world
  = (Raise UnicodeDecodeError,
     set_fs ∅ (set_spawned [[py "more"; py "blob"]] empty_world)).
Proof.
  apply (execute_command_undecodable sample_child_binary (py "more blob")
           sample_valid empty_world (py "more") [py "blob"]
           (mkCompleted 0 [0xFF; 0xFE] []) ∅).
  - reflexivity.
  - apply (bool_decide_unpack _). vm_compute. reflexivity.
  - reflexivity.
  - reflexivity.
Defined.

Lemma execute_command_child_raises_witness :
  _execute_command sample_child_missing (py "ls -la") sample_valid empty_world
  = (Raise (FileNotFoundError (py "ls")),
     set_spawned [[py "ls"; py "-la"]] empty_world).
Proof.
  apply (execute_command_child_raises sample_child_missing (py "ls -la")
           sample_valid empty_world (py "ls") [py "-la"]).
  - reflexivity.
  - apply (bool_decide_unpack _). vm_compute. reflexivity.
  - reflexivity.
Defined.

Lemma write_output_short_document_witness :
  _write_output sample_engine (py "pwd") (Some (py "/some/path")) sample_fid
    (set_docs {[ sample_fid := short_document ]} empty_world)
  = (Raise IndexError,
     set_api [DocumentsGet sample_fid]
       (set_docs {[ sample_fid := short_document ]} empty_world)).
Proof.
  apply (write_output_short_document sample_engine (py "pwd") (py "/some/path")
           sample_fid (set_docs {[ sample_fid := short_document ]} empty_world)
           short_document
           (JDict [(py "content", JList [sample_paragraph 1])])
           [sample_paragraph 1]).
  - vm_compute. reflexivity.
  - eexists. split; reflexivity.
  - eexists. split; reflexivity.
  - simpl. lia.
Defined.

Lemma write_output_short_row_witness :
  _write_output sample_engine (py "pwd") (Some (py "/some/path")) sample_fid
    (set_docs {[ sample_fid := short_row_document ]} empty_world)
  = (Raise IndexError,
     set_api [DocumentsGet sample_fid]
       (set_docs {[ sample_fid := short_row_document ]} empty_world)).
Proof.
  apply (write_output_short_row sample_engine (py "pwd") (py "/some/path")
           sample_fid
           (set_docs {[ sample_fid := short_row_document ]} empty_world)
           short_row_document
           (JDict [(py "content",
                    JList [sample_paragraph 1; short_row_table;
                           sample_paragraph 9])])
           [sample_paragraph 1] short_row_table (sample_paragraph 9)
           (JDict [(py "tableRows",
                    JList [sample_row 3 [sample_cell 4; sample_cell 6]])])
           [] (sample_row 3 [sample_cell 4; sample_cell 6])
           [sample_cell 4; sample_cell 6]).
  - vm_compute. reflexivity.
  - eexists. split; reflexivity.
  - eexists. split; reflexivity.
  - eexists. split; reflexivity.
  - eexists. split; reflexivity.
  - eexists. split; reflexivity.
  - simpl. lia.
Defined.

Lemma cycle_document_command (text : pystr) :
  command_table_shape (cycle_document text) (JStr text).
Proof.
  unfold command_table_shape, has_key, cycle_document.
  do 14 eexists.
  repeat match goal with
         | |- _ /\ _ => split
         | |- exists _, _ => eexists
         | |- _ = _ => reflexivity
         end.
Defined.

Lemma cycle_document_output (text : pystr) :
  output_table_shape (cycle_document text) (JInt 14) [sample_output_header]
    44 46 48.
Proof.
  unfold output_table_shape, has_key, cycle_document.
  eexists _, [_; _; _; _], _, _, _, _, _, _, _, _.
  repeat match goal with
         | |- _ /\ _ => split
         | |- exists _, _ => eexists
         | |- _ = _ => reflexivity
         end.
Defined.

Lemma read_command_strips_cell_witness :
  exists cmd,
    _read_command sample_fid (cycle_world (py "  pwd" ++ [LF]))
    = (Ok cmd, called (DocumentsGet sample_fid)
                 (cycle_world (py "  pwd" ++ [LF])))
    /\ cmd = strip (py "  pwd" ++ [LF]) /\ lstrip cmd = cmd /\ rstrip cmd = cmd
    /\ (blank (py "  pwd" ++ [LF]) = true -> cmd = []).
Proof.
  apply (read_command_strips_cell sample_fid (py "  pwd" ++ [LF])
           (cycle_document (py "  pwd" ++ [LF]))).
  - vm_compute. reflexivity.
  - apply cycle_document_command.
Defined.

Lemma read_command_short_document_witness :
  fst (_read_command sample_fid
         (set_docs {[ sample_fid := short_document ]} empty_world))
  = Raise IndexError.
Proof.
  apply (read_command_short_document sample_fid short_document
           (JDict [(py "content", JList [sample_paragraph 1])])
           [sample_paragraph 1]).
  - vm_compute. reflexivity.
  - eexists. split; reflexivity.
  - eexists. split; reflexivity.
  - simpl. lia.
Defined.

Lemma sample_document_template : template_shape sample_document 4 16 25 33.
Proof.
  unfold template_shape, first_row_cells, cell_starts_at, has_key,
    sample_document.
  do 6 eexists.
  repeat match goal with
         | |- _ /\ _ => split
         | |- exists _, _ => eexists
         | |- _ = _ => reflexivity
         end.
Defined.

Lemma add_tables_calls_witness :
  w_api (snd (_add_tables template_engine sample_fid docs_world))
  = [DocumentsBatchUpdate sample_fid [append_table_request 2 1];
     DocumentsBatchUpdate sample_fid [append_table_request 2 3];
     DocumentsGet sample_fid;
     DocumentsBatchUpdate sample_fid
       [insert_text_request (JInt 34) (py "Datetime");
        insert_text_request (JInt 26) (py "Output");
        insert_text_request (JInt 17) (py "Command");
        insert_text_request (JInt 5) (py "Insert command below")]].
Proof.
  apply (add_tables_calls template_engine sample_fid docs_world
           sample_document sample_document sample_document 4 16 25 33).
  - vm_compute. reflexivity.
  - reflexivity.
  - reflexivity.
  - exact sample_document_template.
Defined.

Lemma add_tables_stops_at_first_failure_witness :
  _add_tables rejecting_engine sample_fid docs_world
  = (Raise HttpError,
     set_api [DocumentsBatchUpdate sample_fid [insert_table_request 1]]
       docs_world).
Proof.
  apply (add_tables_stops_at_first_failure rejecting_engine sample_fid
           docs_world sample_document).
  - vm_compute. reflexivity.
  - reflexivity.
Defined.

Lemma build_valid_commands_of_names_witness :
  _build_valid_commands sample_config
  = Ok (list_to_set (map strip [py "ls"; py " pwd"; py " touch"; py " echo";
                                py " more"]))
  /\ (forall n,
        n ∈ (list_to_set (map strip [py "ls"; py " pwd"; py " touch";
                                     py " echo"; py " more"]) : gset pystr)
        <-> exists f, f ∈ [py "ls"; py " pwd"; py " touch"; py " echo";
                           py " more"] /\ n = strip f).
Proof.
  apply (build_valid_commands_of_names sample_config
           [py "ls"; py " pwd"; py " touch"; py " echo"; py " more"]).
  - discriminate.
  - repeat constructor.
  - reflexivity.
Defined.

Lemma build_valid_commands_names_trimmed_witness :
  free_of comma (py "pwd") = true /\ lstrip (py "pwd") = py "pwd"
  /\ rstrip (py "pwd") = py "pwd".
Proof.
  apply (build_valid_commands_names_trimmed sample_config
           (list_to_set (map strip (split_sep comma
                                      (py "ls, pwd, touch, echo, more"))))
           (py "pwd")).
  - reflexivity.
  - apply (bool_decide_unpack _). vm_compute. reflexivity.
Defined.

Lemma blank_whitelist_authorizes_nothing_witness :
  spawned_by sample_child (py "ls -la")
    (list_to_set (map strip (split_sep comma (py " , ")))) empty_world = []
  /\ (fst (_execute_command sample_child (py "ls -la")
             (list_to_set (map strip (split_sep comma (py " , "))))
             empty_world) = Ok None
      \/ fst (_execute_command sample_child (py "ls -la")
                (list_to_set (map strip (split_sep comma (py " , "))))
                empty_world) = Ok (Some OUTPUT_INVALID_CMD)).
Proof.
  apply (blank_whitelist_authorizes_nothing sample_child blank_config
           (py " , ")); reflexivity.
Defined.

Lemma create_lib_dir_makes_path_witness :
  create_lib_dir (py "/var/run/gshell.pid") home_world = (Ok tt, home_world)
  /\ create_lib_dir (py "/home/user/.gdoc_shell") fresh_home_world
     = (Ok tt,
        set_fs (<[py "/home/user/.gdoc_shell" := Dir]> (w_fs fresh_home_world))
          fresh_home_world)
  /\ w_fs (snd (create_lib_dir (py "/home/user/.gdoc_shell") fresh_home_world))
     !! py "/home/user/.gdoc_shell" = Some Dir.
Proof.
  split; [|split].
  - apply (proj1 (create_lib_dir_makes_path (py "/var/run/gshell.pid")
                    home_world) (File (py "4242" ++ [LF]))).
    vm_compute. reflexivity.
  - apply (proj1 (proj2 (create_lib_dir_makes_path
                           (py "/home/user/.gdoc_shell") fresh_home_world))).
    + split; vm_compute; discriminate.
    + vm_compute. reflexivity.
    + right. vm_compute. reflexivity.
  - apply (proj2 (proj2 (create_lib_dir_makes_path
                           (py "/home/user/.gdoc_shell") fresh_home_world))).
    + split; vm_compute; discriminate.
    + vm_compute. reflexivity.
    + vm_compute. reflexivity.
Defined.

Lemma first_run_files_witness :
  exists w',
    (create_lib_dir (STORAGE_PATH sample_home) ;;
     _create_file sample_drive sample_home (py "gshell")) fresh_home_world
    = (Ok (JStr sample_fid), w')
    /\ w_fs w' !! STORAGE_PATH sample_home = Some Dir
    /\ w_fs w' !! FILE_ID_PATH sample_home = Some (File sample_fid)
    /\ read_id (FILE_ID_PATH sample_home) w' = (Ok (readline sample_fid), w')
    /\ exists b : bool,
         needs_setup (STORAGE_PATH sample_home) (FILE_ID_PATH sample_home)
           (TOKEN_PATH sample_home) w' = (Ok b, w')
         /\ (b = true <->
             w_fs fresh_home_world !! TOKEN_PATH sample_home = None).
Proof.
  apply (first_run_files sample_drive sample_home (py "gshell") sample_fid
           [(py "kind", JStr (py "drive#file")); (py "id", JStr sample_fid)]
           fresh_home_world).
  - vm_compute. reflexivity.
  - vm_compute. reflexivity.
  - right. vm_compute. reflexivity.
  - reflexivity.
  - reflexivity.
  - reflexivity.
Defined.

Lemma create_file_without_id_witness :
  _create_file sample_drive_no_id sample_home (py "gshell") home_world
  = (Raise TypeError,
     snd (open_w (FILE_ID_PATH sample_home) home_world))
  /\ w_fs (snd (open_w (FILE_ID_PATH sample_home) home_world))
     !! FILE_ID_PATH sample_home = Some (File [])
  /\ read_id (FILE_ID_PATH sample_home)
       (snd (open_w (FILE_ID_PATH sample_home) home_world))
     = (Ok [], snd (open_w (FILE_ID_PATH sample_home) home_world)).
Proof.
  apply (create_file_without_id sample_drive_no_id sample_home (py "gshell")
           [(py "kind", JStr (py "drive#file"))] home_world).
  - reflexivity.
  - reflexivity.
  - vm_compute. reflexivity.
Defined.

Lemma create_file_read_id_witness :
  exists s,
    JStr sample_fid = JStr s
    /\ read_id (FILE_ID_PATH sample_home)
         (snd (_create_file sample_drive sample_home (py "gshell") home_world))
       = (Ok (readline s),
          snd (_create_file sample_drive sample_home (py "gshell") home_world))
    /\ (single_line s = true ->
        read_id (FILE_ID_PATH sample_home)
          (snd (_create_file sample_drive sample_home (py "gshell")
                  home_world))
        = (Ok s,
           snd (_create_file sample_drive sample_home (py "gshell")
                  home_world))).
Proof.
  apply (create_file_read_id sample_drive sample_home (py "gshell")
           (JStr sample_fid) home_world).
  vm_compute. reflexivity.
Defined.

Lemma main_restart_witness :
  main sample_parse_args sample_start sample_stop_fails
    (cli_world (py "restart"))
  = match sample_stop_fails (cli_world (py "restart")) with
    | (Ok _, w1) => sample_start w1
    | (Raise e, w1) => (Raise e, w1)
    end.
Proof.
  apply (main_restart sample_parse_args sample_start sample_stop_fails
           (cli_world (py "restart")) [(py "mode", py "restart")]);
    reflexivity.
Defined.

Lemma run_idle_cycle_witness :
  _run sample_child sample_engine sample_home sample_read_config
    sample_connect (cycle_world [LF])
  = (Ok tt,
     logged (mkLog INFO (py "Output updated to file") [])
       (logged (mkLog INFO (py "Command to execute: %s") [[]])
          (called (DocumentsGet sample_fid)
             (logged (mkLog INFO (py "File id found %s") [sample_fid])
                (cycle_world [LF]))))).
Proof.
  apply (run_idle_cycle sample_child sample_engine sample_home
           sample_read_config sample_connect (cycle_world [LF]) sample_config
           sample_fid (py "credentials.json") [LF] (cycle_document [LF])
           (list_to_set (map strip (split_sep comma
                                      (py "ls, pwd, touch, echo, more"))))).
  - reflexivity.
  - vm_compute. reflexivity.
  - reflexivity.
  - reflexivity.
  - vm_compute. reflexivity.
  - apply cycle_document_command.
  - reflexivity.
  - reflexivity.
Defined.


Lemma run_executed_cycle_witness :
  w_spawned (snd (_run sample_child sample_engine sample_home
                    sample_read_config sample_connect
                    (cycle_world (py "echo Testing" ++ [LF]))))
  = [[py "echo"; py "Testing"]]
  /\ w_fs (snd (_run sample_child sample_engine sample_home
                  sample_read_config sample_connect
                  (cycle_world (py "echo Testing" ++ [LF]))))
     = w_fs (cycle_world (py "echo Testing" ++ [LF]))
  /\ w_api (snd (_run sample_child sample_engine sample_home
                   sample_read_config sample_connect
                   (cycle_world (py "echo Testing" ++ [LF]))))
     = [DocumentsGet sample_fid; DocumentsGet sample_fid;
        DocumentsBatchUpdate sample_fid
          [insert_text_request (JInt 49) (py "2020-01-01 12:30:05");
           insert_text_request (JInt 47) (py "Testing");
           insert_text_request (JInt 45) (py "echo Testing");
           insert_row_below (JInt 14) 1]].
Proof.
  apply (run_executed_cycle sample_child sample_engine sample_home
           sample_read_config sample_connect
           (cycle_world (py "echo Testing" ++ [LF])) sample_config
           sample_fid (py "credentials.json") (py "echo Testing" ++ [LF])
           (py "Testing" ++ [LF])
           (cycle_document (py "echo Testing" ++ [LF]))
           (list_to_set (map strip (split_sep comma
                                      (py "ls, pwd, touch, echo, more"))))
           (py "echo") [py "Testing"]
           (mkCompleted 0 (py "Testing" ++ [LF]) [])
           (w_fs (cycle_world (py "echo Testing" ++ [LF])))
           (JInt 14) [sample_output_header] 44 46 48).
  - reflexivity.
  - vm_compute. reflexivity.
  - reflexivity.
  - reflexivity.
  - vm_compute. reflexivity.
  - apply cycle_document_command.
  - reflexivity.
  - reflexivity.
  - apply (bool_decide_unpack _). vm_compute. reflexivity.
  - reflexivity.
  - reflexivity.
  - apply cycle_document_output.
Defined.

(** ** Stopping and restarting *)

Section StopMore.

Variable read_config : M config.
Variable py_int : pystr -> result Z.
Variable os_kill : Z -> N -> M unit.

Lemma stop_reaches_lock_file (w : World) (c : config) (pid_path : pystr) :
  read_config (logged (mkLog INFO (py "Shutting down daemon process.") []) w)
  = (Ok c, logged (mkLog INFO (py "Shutting down daemon process.") []) w) ->
  config_get c MAIN_SECTION PID_PATH = Ok pid_path ->
  stop_daemon read_config py_int os_kill w
  = (text <- read_id pid_path ;;
     pid <- lift (py_int text) ;;
     os_kill pid SIGTERM)
      (logged (mkLog INFO (py "Shutting down daemon process.") []) w).
Proof.
  intros Hcfg Hpath. unfold stop_daemon.
  rewrite bind_logger_info, (bind_ok _ _ _ _ _ Hcfg), bind_lift, Hpath.
  reflexivity.
Qed.

(** X28: [stop] sends [SIGTERM] to one process, the one whose id [int]
    reads from the first line of the lock file, line feed included; it
    does nothing else but log one line, and leaves the lock file to the
    process it signals. *)
Theorem stop_signals_lock_file_pid (w : World) (c : config)
    (pid_path text : pystr) (pid : Z) :
  read_config (logged (mkLog INFO (py "Shutting down daemon process.") []) w)
  = (Ok c, logged (mkLog INFO (py "Shutting down daemon process.") []) w) ->
  config_get c MAIN_SECTION PID_PATH = Ok pid_path ->
  w_fs w !! pid_path = Some (File text) ->
  py_int (readline text) = Ok pid ->
  stop_daemon read_config py_int os_kill w
  = os_kill pid SIGTERM
      (logged (mkLog INFO (py "Shutting down daemon process.") []) w).
Proof.
  intros Hcfg Hpath Hfile Hint.
  rewrite (stop_reaches_lock_file _ _ _ Hcfg Hpath).
  rewrite (bind_ok _ _ _ _ _
             (read_id_file pid_path text
                (logged (mkLog INFO (py "Shutting down daemon process.") []) w)
                Hfile)).
  rewrite bind_lift, Hint. reflexivity.
Qed.

(** X29: when what the lock file holds is not a number for [int], [stop]
    raises the error of [int] and no signal is sent. *)
Theorem stop_unreadable_lock_file (w : World) (c : config)
    (pid_path text : pystr) (e : exn) :
  read_config (logged (mkLog INFO (py "Shutting down daemon process.") []) w)
  = (Ok c, logged (mkLog INFO (py "Shutting down daemon process.") []) w) ->
  config_get c MAIN_SECTION PID_PATH = Ok pid_path ->
  w_fs w !! pid_path = Some (File text) ->
  py_int (readline text) = Raise e ->
  stop_daemon read_config py_int os_kill w
  = (Raise e, logged (mkLog INFO (py "Shutting down daemon process.") []) w).
Proof.
  intros Hcfg Hpath Hfile Hint.
  rewrite (stop_reaches_lock_file _ _ _ Hcfg Hpath).
  rewrite (bind_ok _ _ _ _ _
             (read_id_file pid_path text
                (logged (mkLog INFO (py "Shutting down daemon process.") []) w)
                Hfile)).
  rewrite bind_lift, Hint. reflexivity.
Qed.

Variable parse_args : ArgumentParser -> list pystr -> parse_outcome.
Variable start_daemon_process : M unit.

(** X30: [restart] needs a daemon to stop: with no lock file at the
    configured path, the program ends with [FileNotFoundError] raised by
    [stop], no signal is sent and the daemon is not started; the one effect
    is the line logged by [stop]. *)
Theorem restart_without_lock_file (w : World) namespace (c : config)
    (pid_path : pystr) :
  parse_args the_parser (tail (w_argv w)) = Parsed namespace ->
  attr (py "mode") namespace = Some (py "restart") ->
  read_config (logged (mkLog INFO (py "Shutting down daemon process.") []) w)
  = (Ok c, logged (mkLog INFO (py "Shutting down daemon process.") []) w) ->
  config_get c MAIN_SECTION PID_PATH = Ok pid_path ->
  w_fs w !! pid_path = None ->
  main parse_args start_daemon_process
    (stop_daemon read_config py_int os_kill) w
  = (Raise (FileNotFoundError pid_path),
     logged (mkLog INFO (py "Shutting down daemon process.") []) w).
Proof.
  intros Hparse Hattr Hcfg Hpath Hfile.
  rewrite (main_dispatch _ _ _ _ _ _ Hparse Hattr).
  repeat case_decide;
    try (exfalso;
         match goal with
         | H : py _ = py _ |- _ => vm_compute in H; discriminate H
         | H : py _ <> py _ |- _ => apply H; reflexivity
         end).
  apply bind_raise. rewrite (stop_reaches_lock_file _ _ _ Hcfg Hpath).
  apply bind_raise. unfold read_id. apply bind_raise. unfold open_r.
  cbn [w_fs logged set_log]. rewrite Hfile. reflexivity.
Qed.

End StopMore.

Lemma stop_signals_lock_file_pid_witness :
  stop_daemon sample_read_config sample_int sample_kill home_world
  = sample_kill 4242 SIGTERM
      (logged (mkLog INFO (py "Shutting down daemon process.") []) home_world).
Proof.
  apply (stop_signals_lock_file_pid sample_read_config sample_int sample_kill
           home_world sample_config (py "/var/run/gshell.pid")
           (py "4242" ++ [LF]) 4242).
  - reflexivity.
  - reflexivity.
  - vm_compute. reflexivity.
  - reflexivity.
Defined.

Lemma stop_unreadable_lock_file_witness :
  stop_daemon sample_read_config sample_int sample_kill
    (set_fs {[ py "/var/run/gshell.pid" := File (py "not a pid") ]} empty_world)
  = (Raise (ValueError (py "invalid literal for int() with base 10")),
     logged (mkLog INFO (py "Shutting down daemon process.") [])
       (set_fs {[ py "/var/run/gshell.pid" := File (py "not a pid") ]}
          empty_world)).
Proof.
  apply (stop_unreadable_lock_file sample_read_config sample_int sample_kill
           (set_fs {[ py "/var/run/gshell.pid" := File (py "not a pid") ]}
              empty_world)
           sample_config (py "/var/run/gshell.pid") (py "not a pid")).
  - reflexivity.
  - reflexivity.
  - vm_compute. reflexivity.
  - reflexivity.
Defined.

Lemma restart_without_lock_file_witness :
  main sample_parse_args sample_start
    (stop_daemon sample_read_config sample_int sample_kill) restart_world
  = (Raise (FileNotFoundError (py "/var/run/gshell.pid")),
     logged (mkLog INFO (py "Shutting down daemon process.") [])
       restart_world).
Proof.
  apply (restart_without_lock_file sample_read_config sample_int sample_kill
           sample_parse_args sample_start restart_world
           [(py "mode", py "restart")] sample_config
           (py "/var/run/gshell.pid")).
  - reflexivity.
  - reflexivity.
  - reflexivity.
  - reflexivity.
  - vm_compute. reflexivity.
Defined.

(** ** The program as a whole *)

Lemma open_a_cases (path : pystr) (w w1 : World) :
  open_a path w = (Ok tt, w1) ->
  w1 = w
  \/ (w_fs w !! path = None
      /\ w1 = set_fs (<[path := File []]> (w_fs w)) w).
Proof.
  unfold open_a. intros H.
  repeat match type of H with
         | context [match ?x with _ => _ end] => destruct x eqn:?
         end; try discriminate; injection H as <-; auto.
Qed.

Section WholeProgram.

Variable parse_dashed : ArgumentParser -> list pystr -> parse_outcome.
Variable error_message : ArgumentParser -> list pystr -> pystr.
Variable start_daemon_process : M unit.
Variable stop : M unit.

(** C8: the parser declares one positional argument, [mode]: of a command
    line of plain words, one word is accepted as the mode and any other
    number is refused with status 2.  When the mode is none of [start],
    [stop] and [restart], the program raises [ValueError] and neither mode
    action has run; what has happened before is the opening of the log
    file by the logger set up when the module is loaded, which creates the
    file empty when it was not there. *)
Theorem program_invalid_mode (w w1 : World) :
  setup_logger (py "__main__") LOG_PATH w = (Ok tt, w1) ->
  (w1 = w
   \/ (w_fs w !! LOG_PATH = None
       /\ w1 = set_fs (<[LOG_PATH := File []]> (w_fs w)) w))
  /\ (forall namespace mode,
        argparse_parse_args parse_dashed error_message the_parser
          (tail (w_argv w)) = Parsed namespace ->
        attr (py "mode") namespace = Some mode ->
        mode <> py "start" -> mode <> py "stop" -> mode <> py "restart" ->
        program parse_dashed error_message start_daemon_process stop w
        = (Raise (ValueError (py "Invalid mode.")), w1))
  /\ (forallb plain_word (tail (w_argv w)) = true ->
      match tail (w_argv w) with
      | [mode] =>
          argparse_parse_args parse_dashed error_message the_parser
            (tail (w_argv w)) = Parsed [(py "mode", mode)]
      | args =>
          program parse_dashed error_message start_daemon_process stop w
          = (Raise (SystemExit 2),
             set_stderr (w_stderr w1 ++ [error_message the_parser args]) w1)
      end).
Proof.
  intros Hsetup.
  assert (Hcases := open_a_cases _ _ _ Hsetup).
  assert (Hargv : w_argv w1 = w_argv w)
    by (destruct Hcases as [->|[_ ->]]; reflexivity).
  split; [exact Hcases|]. split.
  - intros namespace mode Hparse Hattr Hstart Hstop Hrestart.
    unfold program. rewrite (bind_ok _ _ _ _ _ Hsetup).
    rewrite <- Hargv in Hparse.
    rewrite (main_dispatch _ _ _ _ _ _ Hparse Hattr).
    repeat case_decide; try contradiction. reflexivity.
  - intros Hplain. unfold program. rewrite (bind_ok _ _ _ _ _ Hsetup).
    destruct (tail (w_argv w)) as [|mode [|second more]] eqn:Hargs.
    + apply main_parse_exit. rewrite Hargv, Hargs. reflexivity.
    + unfold argparse_parse_args. rewrite Hplain. reflexivity.
    + apply main_parse_exit. rewrite Hargv, Hargs.
      unfold argparse_parse_args. rewrite Hplain. reflexivity.
Qed.

End WholeProgram.

Lemma program_invalid_mode_witness :
  program sample_parse_dashed sample_error_message sample_start sample_stop
    (log_dir_world (py "status"))
  = (Raise (ValueError (py "Invalid mode.")),
     set_fs (<[LOG_PATH := File []]> (w_fs (log_dir_world (py "status"))))
       (log_dir_world (py "status"))).
Proof.
  apply (proj1 (proj2 (program_invalid_mode sample_parse_dashed
                         sample_error_message sample_start sample_stop
                         (log_dir_world (py "status")) _ eq_refl))
           [(py "mode", py "status")] (py "status"));
    [reflexivity | reflexivity | discriminate | discriminate | discriminate].
Defined.

(** The statement of C8 as the specification has it fails: with the mode
    [status], the log file has been created when [ValueError] is raised. *)
Lemma invalid_mode_after_log_file_created :
  fst (program sample_parse_dashed sample_error_message sample_start
         sample_stop (log_dir_world (py "status")))
  = Raise (ValueError (py "Invalid mode."))
  /\ w_fs (log_dir_world (py "status")) !! LOG_PATH = None
  /\ w_fs (snd (program sample_parse_dashed sample_error_message sample_start
                  sample_stop (log_dir_world (py "status"))))
     !! LOG_PATH = Some (File [])
  /\ snd (program sample_parse_dashed sample_error_message sample_start
            sample_stop (log_dir_world (py "status")))
     <> log_dir_world (py "status").
Proof.
  split; [reflexivity|]. split; [vm_compute; reflexivity|].
  split; [vm_compute; reflexivity|].
  intros H. apply (f_equal (fun w => w_fs w !! LOG_PATH)) in H.
  vm_compute in H. discriminate H.
Qed.

(** The statement of C10 as it was made fails: of a file whose first line
    ends with a carriage return, [read_id] returns a string that is not
    the beginning of the file. *)
Lemma read_id_carriage_return_not_verbatim :
  read_id (py "/var/run/gshell.pid") carriage_return_world
  = (Ok (py "12" ++ [LF]), carriage_return_world)
  /\ w_fs carriage_return_world !! py "/var/run/gshell.pid"
     = Some (File (py "12" ++ [CR] ++ py "34"))
  /\ ~ (exists rest, py "12" ++ [CR] ++ py "34" = (py "12" ++ [LF]) ++ rest).
Proof.
  split; [vm_compute; reflexivity|]. split; [vm_compute; reflexivity|].
  intros [rest H]. vm_compute in H. discriminate H.
Qed.

(** When the log file cannot be opened, the program ends with the error of
    [open] before the command line is looked at. *)
Lemma program_log_unavailable
    (parse_dashed : ArgumentParser -> list pystr -> parse_outcome)
    (error_message : ArgumentParser -> list pystr -> pystr)
    (start_daemon_process stop : M unit) (w w1 : World) (e : exn) :
  setup_logger (py "__main__") LOG_PATH w = (Raise e, w1) ->
  program parse_dashed error_message start_daemon_process stop w
  = (Raise e, w1).
Proof.
  intros H. unfold program, bind. rewrite H. reflexivity.
Qed.

Example program_without_log_directory :
  program sample_parse_dashed sample_error_message sample_start sample_stop
    (cli_world (py "start"))
  = (Raise (FileNotFoundError LOG_PATH), cli_world (py "start")).
Proof. vm_compute. reflexivity. Qed.
